(** * The EDF/ASC event-log reader of [neurosystems.py]

    A shallow embedding of [replace_missing] and [read_edf]
    (src/neurosystems/neurosystems.py) together with the part of the
    Python runtime they rely on: [str] slicing, [find], [split],
    [replace], the [in] operator, and the [int] and [float] constructors
    applied to text.

    Scope of the runtime model: text is a sequence of 8-bit characters
    and the model is exact on ASCII text (the decimal digits and the
    white space of other scripts that CPython also accepts are outside
    it).  A Python [float] is an IEEE binary64 value, represented by the
    standard library's [spec_float]; decimal text is converted with one
    correct rounding to nearest-even, as CPython does.  Integers are
    unbounded.  A numpy array is represented by the list it was built
    from, which gives its values as long as every int of the list fits
    in 64 bits (beyond that numpy changes the element type and may round;
    the statements about the values of [time] and [trackertime] say
    so), and the [missing] code is a float.  The debug trace
    ([message]) never changes the returned data and is left out.

    Layout: the runtime model ([Py]), the data model ([Events], [Trial],
    [Locals]), the two functions, the vocabulary of the statements, and
    then the lemmas, grouped by the property they establish. *)

From Stdlib Require Import ZArith NArith List Bool Ascii String Lia.
From Stdlib Require Import Floats.SpecFloat.
Import ListNotations.

Local Open Scope string_scope.
Local Open Scope Z_scope.

(** ** Exceptions and the error monad *)

Inductive exn : Type :=
| ValueError
| IndexError
| OverflowError
| FileError.   (* [raise Exception("... does not exist")] *)

Inductive result (A : Type) : Type :=
| OK (a : A)
| Raise (e : exn).

Arguments OK {A} a.
Arguments Raise {A} e.

Definition bind {A B : Type} (r : result A) (k : A -> result B) : result B :=
  match r with
  | OK a => k a
  | Raise e => Raise e
  end.

Notation "x <- e ;; k" := (bind e (fun x => k))
  (at level 100, e at next level, right associativity).

(** ** Python text operations *)

Module Py.

Definition TAB : string := String "009" "".
Definition LF : string := String "010" "".

Definition len (s : string) : Z := Z.of_nat (String.length s).

(** [sub in s] *)
Fixpoint contains (sub s : string) : bool :=
  match s with
  | EmptyString => prefix sub s
  | String _ s' => prefix sub s || contains sub s'
  end.

(** [s.find(sub)]: the least index at which [sub] occurs, or -1. *)
Fixpoint find_from (sub s : string) (i : Z) : Z :=
  if prefix sub s then i
  else match s with
       | EmptyString => -1
       | String _ s' => find_from sub s' (i + 1)
       end.

Definition find (s sub : string) : Z := find_from sub s 0.

(** Slice bounds: a negative bound counts from the end, and every bound
    is clipped to [0, len]. *)
Definition clip (n i : Z) : Z :=
  if i <? 0 then Z.max 0 (i + n) else Z.min i n.

(** [s[lo:hi]] *)
Definition slice (s : string) (lo hi : Z) : string :=
  let n := len s in
  let lo' := clip n lo in
  let hi' := clip n hi in
  substring (Z.to_nat lo') (Z.to_nat (hi' - lo')) s.

(** [s[lo:]] *)
Definition slice_from (s : string) (lo : Z) : string :=
  slice s lo (len s).

(** [s.split(sep)] for a one-character separator: never empty. *)
Fixpoint split (sep : ascii) (s : string) : list string :=
  match s with
  | EmptyString => [EmptyString]
  | String c s' =>
      if Ascii.eqb c sep then EmptyString :: split sep s'
      else match split sep s' with
           | [] => [String c EmptyString]
           | f :: fs => String c f :: fs
           end
  end.

(** [s.replace(c, '')] for a one-character [c]. *)
Fixpoint remove (c : ascii) (s : string) : string :=
  match s with
  | EmptyString => EmptyString
  | String a s' => if Ascii.eqb a c then remove c s' else String a (remove c s')
  end.

(** [l[i]] for [i >= 0], and [l[-1]]. *)
Definition index {A : Type} (l : list A) (i : nat) : result A :=
  match nth_error l i with
  | Some a => OK a
  | None => Raise IndexError
  end.

Fixpoint index_last {A : Type} (l : list A) : result A :=
  match l with
  | [] => Raise IndexError
  | [a] => OK a
  | _ :: l' => index_last l'
  end.

(** [l[i] = v] for an index known to be in range. *)
Fixpoint setitem {A : Type} (l : list A) (i : nat) (v : A) : list A :=
  match l, i with
  | [], _ => []
  | _ :: l', O => v :: l'
  | a :: l', S i' => a :: setitem l' i' v
  end.

(** *** Characters *)

Definition code (c : ascii) : Z := Z.of_N (N_of_ascii c).

(** White space skipped by [int] and [float] on ASCII text. *)
Definition is_space (c : ascii) : bool :=
  ((9 <=? code c) && (code c <=? 13)) || (code c =? 32).

Definition is_digit (c : ascii) : bool :=
  (48 <=? code c) && (code c <=? 57).

Definition digit (c : ascii) : Z := code c - 48.

Definition lower (c : ascii) : ascii :=
  if (65 <=? code c) && (code c <=? 90)
  then ascii_of_N (Z.to_N (code c + 32)) else c.

Fixpoint lstrip (l : list ascii) : list ascii :=
  match l with
  | [] => []
  | c :: l' => if is_space c then lstrip l' else l
  end.

Fixpoint rstrip (l : list ascii) : list ascii :=
  match l with
  | [] => []
  | c :: l' =>
      match rstrip l' with
      | [] => if is_space c then [] else [c]
      | r => c :: r
      end
  end.

Definition strip (l : list ascii) : list ascii := lstrip (rstrip l).

(** An optional sign: [true] for a leading minus. *)
Definition sign (l : list ascii) : bool * list ascii :=
  match l with
  | "-"%char :: l' => (true, l')
  | "+"%char :: l' => (false, l')
  | _ => (false, l)
  end.

(** *** [int(text)]

    White space, an optional sign, then decimal digits in which single
    underscores may separate digits; trailing white space. *)

Fixpoint int_digits (prev_digit : bool) (l : list ascii) (acc : Z) : option Z :=
  match l with
  | [] => if prev_digit then Some acc else None
  | c :: l' =>
      if is_digit c then int_digits true l' (10 * acc + digit c)
      else if Ascii.eqb c "_" && prev_digit then int_digits false l' acc
      else None
  end.

Definition int_of_string (s : string) : result Z :=
  let '(neg, body) := sign (strip (list_ascii_of_string s)) in
  match int_digits false body 0 with
  | Some n => OK (if neg then - n else n)
  | None => Raise ValueError
  end.

(** *** [float(text)] *)

Definition pyfloat : Type := spec_float.

Definition prec : Z := 53.
Definition emax : Z := 1024.

Definition zero : pyfloat := S754_zero false.

(** [a == b] on floats. *)
Definition feqb (a b : pyfloat) : bool := SFeqb a b.

(** The binary64 value nearest to [m * 10^e], ties to even; an overflow
    gives an infinity and an underflow a signed zero. *)
Definition of_decimal (neg : bool) (m : Z) (e : Z) : pyfloat :=
  match m with
  | Zpos p =>
      if 0 <=? e then
        binary_round prec emax neg (Z.to_pos (Zpos p * 10 ^ e)) 0
      else
        let '(q, e', l) :=
          SFdiv_core_binary prec emax (Zpos p) 0 (10 ^ (- e)) 0 in
        binary_round_aux prec emax neg q e' l
  | _ => S754_zero neg
  end.

(** Underscores may only stand between two digits; they are removed
    before the number is read. *)
Fixpoint drop_underscores (prev : ascii) (l : list ascii) : option (list ascii) :=
  match l with
  | [] => if Ascii.eqb prev "_" then None else Some []
  | c :: l' =>
      if Ascii.eqb c "_" then
        if is_digit prev then drop_underscores c l' else None
      else if Ascii.eqb prev "_" && negb (is_digit c) then None
      else option_map (cons c) (drop_underscores c l')
  end.

Fixpoint span_digits (l : list ascii) : list ascii * list ascii :=
  match l with
  | c :: l' =>
      if is_digit c then let '(d, r) := span_digits l' in (c :: d, r)
      else ([], l)
  | [] => ([], [])
  end.

Definition digits_value (ds : list ascii) : Z :=
  fold_left (fun acc c => 10 * acc + digit c) ds 0.

(** The exponent part: empty, or [e]/[E], an optional sign and at least
    one digit, up to the end of the text. *)
Definition exponent (l : list ascii) : option Z :=
  match l with
  | [] => Some 0
  | c :: l' =>
      if Ascii.eqb (lower c) "e" then
        let '(neg, l'') := sign l' in
        match span_digits l'' with
        | ((_ :: _) as ds, []) =>
            Some (if neg then - digits_value ds else digits_value ds)
        | _ => None
        end
      else None
  end.

(** [digits [. digits] [exponent]] or [. digits [exponent]]. *)
Definition decimal (neg : bool) (l : list ascii) : option pyfloat :=
  let '(ip, r1) := span_digits l in
  let '(fp, r2) :=
    match r1 with
    | "."%char :: r => span_digits r
    | _ => ([], r1)
    end in
  match (ip ++ fp)%list with
  | [] => None
  | ds =>
      match exponent r2 with
      | Some e =>
          Some (of_decimal neg (digits_value ds)
                  (e - Z.of_nat (List.length fp)))
      | None => None
      end
  end.

Definition inf_or_nan (neg : bool) (l : list ascii) : option pyfloat :=
  let w := string_of_list_ascii (map lower l) in
  if (w =? "inf")%string || (w =? "infinity")%string then Some (S754_infinity neg)
  else if (w =? "nan")%string then Some S754_nan
  else None.

Definition float_of_chars (l : list ascii) : option pyfloat :=
  match drop_underscores "000" l with
  | None => None
  | Some l' =>
      let '(neg, body) := sign l' in
      match inf_or_nan neg body with
      | Some v => Some v
      | None => decimal neg body
      end
  end.

Definition float_of_string (s : string) : result pyfloat :=
  match float_of_chars (strip (list_ascii_of_string s)) with
  | Some v => OK v
  | None => Raise ValueError
  end.

(** *** Values held by the list [l] of a sample line

    [l] is first a list of [str]; [l[1] = 0.0] then stores a float in
    it. *)
Inductive value : Type :=
| Str (s : string)
| Float (f : pyfloat).

(** [int(v)]: a float is truncated towards zero. *)
Definition int (v : value) : result Z :=
  match v with
  | Str s => int_of_string s
  | Float (S754_zero _) => OK 0
  | Float (S754_finite s m e) =>
      let a := if 0 <=? e then Zpos m * 2 ^ e else Zpos m / 2 ^ (- e) in
      OK (if s then - a else a)
  | Float (S754_infinity _) => Raise OverflowError
  | Float S754_nan => Raise ValueError
  end.

(** [float(v)] *)
Definition float (v : value) : result pyfloat :=
  match v with
  | Str s => float_of_string s
  | Float f => OK f
  end.

End Py.

Import Py.

(** ** Data model: the trial dicts returned by [read_edf] *)

(** The [events] dict: one list per key.  The start events hold the bare
    integers that the code appends; the end events hold the lists
    [[st, et, dur, ...]] as tuples; a message is [[t, m]]. *)
Module Events.
Record t : Type := mk {
  Sfix : list Z;
  Ssac : list Z;
  Sblk : list Z;
  Efix : list (Z * Z * Z * pyfloat * pyfloat);
  Esac : list (Z * Z * Z * pyfloat * pyfloat * pyfloat * pyfloat);
  Eblk : list (Z * Z * Z);
  msg : list (Z * string)
}.

Definition empty : t := mk [] [] [] [] [] [] [].

Definition append_Sfix (v : Z) (e : t) : t :=
  mk (Sfix e ++ [v]) (Ssac e) (Sblk e) (Efix e) (Esac e) (Eblk e) (msg e).
Definition append_Ssac (v : Z) (e : t) : t :=
  mk (Sfix e) (Ssac e ++ [v]) (Sblk e) (Efix e) (Esac e) (Eblk e) (msg e).
Definition append_Sblk (v : Z) (e : t) : t :=
  mk (Sfix e) (Ssac e) (Sblk e ++ [v]) (Efix e) (Esac e) (Eblk e) (msg e).
Definition append_Efix v (e : t) : t :=
  mk (Sfix e) (Ssac e) (Sblk e) (Efix e ++ [v]) (Esac e) (Eblk e) (msg e).
Definition append_Esac v (e : t) : t :=
  mk (Sfix e) (Ssac e) (Sblk e) (Efix e) (Esac e ++ [v]) (Eblk e) (msg e).
Definition append_Eblk v (e : t) : t :=
  mk (Sfix e) (Ssac e) (Sblk e) (Efix e) (Esac e) (Eblk e ++ [v]) (msg e).
Definition append_msg v (e : t) : t :=
  mk (Sfix e) (Ssac e) (Sblk e) (Efix e) (Esac e) (Eblk e) (msg e ++ [v]).
End Events.

Module Trial.
Record t : Type := mk {
  x : list pyfloat;
  y : list pyfloat;
  size : list pyfloat;
  time : list Z;
  trackertime : list Z;
  events : Events.t
}.
End Trial.

(** The local variables of [read_edf] that live across iterations of the
    loop.  [trialend] is [False] at the top of every iteration (it is
    reset in the block that it guards), so it is local to one step. *)
Module Locals.
Record t : Type := mk {
  data : list Trial.t;
  x : list pyfloat;
  y : list pyfloat;
  size : list pyfloat;
  time : list Z;
  trackertime : list Z;
  events : Events.t;
  starttime : Z;
  started : bool
}.

Definition init : t := mk [] [] [] [] [] [] Events.empty 0 false.

Definition set_events (e : Events.t) (st : t) : t :=
  mk (data st) (x st) (y st) (size st) (time st) (trackertime st) e
     (starttime st) (started st).

(** The trial dict built from the current buffers.  Each [numpy.array]
    is the list it is built from; see [exact_times] for the values of
    the two int arrays. *)
Definition trial (st : t) : Trial.t :=
  Trial.mk (x st) (y st) (size st) (time st) (trackertime st) (events st).

(** The five [append] calls that close the handling of a sample line. *)
Definition append_sample (fx fy fs : pyfloat) (rel abs : Z) (st : t) : t :=
  mk (data st) (x st ++ [fx]) (y st ++ [fy]) (size st ++ [fs])
     (time st ++ [rel]) (trackertime st ++ [abs])
     (events st) (starttime st) (started st).

(** An open trial that started at [t0] and has collected nothing yet. *)
Definition fresh_trial (t0 : Z) : t :=
  mk [] [] [] [] [] [] Events.empty t0 true.
End Locals.

(** ** [replace_missing] *)

Definition replace_missing (value : string) (missing : pyfloat) : result pyfloat :=
  if (Py.remove " " value =? ".")%string then OK missing
  else Py.float_of_string value.

(** ** [read_edf] *)

Section ReadEdf.

Variable start : string.
Variable stop : option string.
Variable missing : pyfloat.

(** The block under [if trialend:]: the trial is appended to [data] and
    the buffers are reset; [starttime] is left as it is. *)
Definition end_trial (started' : bool) (st : Locals.t) : Locals.t :=
  Locals.mk (Locals.data st ++ [Locals.trial st]) [] [] [] [] []
            Events.empty (Locals.starttime st) started'.

(** [int(line[line.find('\t')+1:line.find(' ')])]: the time stamp of the
    line that opens a trial. *)
Definition start_timestamp (line : string) : result Z :=
  int_of_string (slice line (find line TAB + 1) (find line " ")).

(** The first half of the loop body: [if started: ... else: ...]. *)
Definition check_started (finalline line : string) (st : Locals.t)
  : result Locals.t :=
  if Locals.started st then
    match stop with
    | Some stop' =>
        if contains stop' line then OK (end_trial false st) else OK st
    | None =>
        if contains start line || (line =? finalline)%string
        then OK (end_trial true st) else OK st
    end
  else
    if contains start line then
      t <- start_timestamp line ;;
      OK (Locals.mk (Locals.data st) (Locals.x st) (Locals.y st)
            (Locals.size st) (Locals.time st) (Locals.trackertime st)
            (Locals.events st) t true)
    else OK st.

(** [line.split('\t')] *)
Definition fields (line : string) : list string := split "009" line.

(** The [else:] branch of the dispatch: a candidate sample line. *)
Definition sample_line (line : string) (st : Locals.t) : result Locals.t :=
  let l := map Str (fields line) in
  match (v0 <- index l 0 ;; int v0) with
  | Raise _ => OK st
  | OK _ =>
      v3 <- index l 3 ;;
      f3 <- float v3 ;;
      let l := if feqb f3 zero
               then setitem (setitem l 1 (Float zero)) 2 (Float zero)
               else l in
      v1 <- index l 1 ;;
      fx <- float v1 ;;
      v2 <- index l 2 ;;
      fy <- float v2 ;;
      v3 <- index l 3 ;;
      fs <- float v3 ;;
      v0 <- index l 0 ;;
      t <- int v0 ;;
      v0' <- index l 0 ;;
      tt <- int v0' ;;
      OK (Locals.append_sample fx fy fs (t - Locals.starttime st) tt st)
  end.

(** [int(l[i])] and [replace_missing(l[i], missing=missing)] on the
    fields of an event line. *)
Definition int_field (l : list string) (i : nat) : result Z :=
  s <- index l i ;; int_of_string s.

Definition pos_field (l : list string) (i : nat) : result pyfloat :=
  s <- index l i ;; replace_missing s missing.

(** The second half of the loop body, under [if started:]. *)
Definition parse_line (line : string) (st : Locals.t) : result Locals.t :=
  let ev := Locals.events st in
  if (slice line 0 3 =? "MSG")%string then
    let ms := find line " " in
    t <- int_of_string (slice line 4 ms) ;;
    let m := slice_from line (ms + 1) in
    OK (Locals.set_events (Events.append_msg (t, m) ev) st)
  else if (slice line 0 6 =? "SFIX L")%string then
    t <- int_of_string (slice_from line 9) ;;
    OK (Locals.set_events (Events.append_Sfix t ev) st)
  else if (slice line 0 6 =? "EFIX L")%string then
    let l := fields (slice_from line 9) in
    st' <- int_field l 0 ;;
    et <- int_field l 1 ;;
    dur <- int_field l 2 ;;
    sx <- pos_field l 3 ;;
    sy <- pos_field l 4 ;;
    OK (Locals.set_events (Events.append_Efix (st', et, dur, sx, sy) ev) st)
  else if (slice line 0 7 =? "SSACC L")%string then
    t <- int_of_string (slice_from line 9) ;;
    OK (Locals.set_events (Events.append_Ssac t ev) st)
  else if (slice line 0 7 =? "ESACC L")%string then
    let l := fields (slice_from line 9) in
    st' <- int_field l 0 ;;
    et <- int_field l 1 ;;
    dur <- int_field l 2 ;;
    sx <- pos_field l 3 ;;
    sy <- pos_field l 4 ;;
    ex <- pos_field l 5 ;;
    ey <- pos_field l 6 ;;
    OK (Locals.set_events
          (Events.append_Esac (st', et, dur, sx, sy, ex, ey) ev) st)
  else if (slice line 0 6 =? "SBLINK")%string then
    t <- int_of_string (slice_from line 9) ;;
    OK (Locals.set_events (Events.append_Sblk t ev) st)
  else if (slice line 0 6 =? "EBLINK")%string then
    let l := fields (slice_from line 9) in
    st' <- int_field l 0 ;;
    et <- int_field l 1 ;;
    dur <- int_field l 2 ;;
    OK (Locals.set_events (Events.append_Eblk (st', et, dur) ev) st)
  else sample_line line st.

(** One iteration of [for line in raw:]. *)
Definition step (finalline : string) (st : Locals.t) (line : string)
  : result Locals.t :=
  st1 <- check_started finalline line st ;;
  if Locals.started st1 then parse_line line st1 else OK st1.

Fixpoint loop (finalline : string) (raw : list string) (st : Locals.t)
  : result Locals.t :=
  match raw with
  | [] => OK st
  | line :: rest => st' <- step finalline st line ;; loop finalline rest st'
  end.

(** [file] is what the file system holds under [filename]: [None] when
    [os.path.isfile(filename)] is false, else the list [f.readlines()]. *)
Definition read_edf (file : option (list string)) : result (list Trial.t) :=
  match file with
  | None => Raise FileError
  | Some raw =>
      finalline <- index_last raw ;;
      st <- loop finalline raw Locals.init ;;
      OK (Locals.data st)
  end.

End ReadEdf.

(** ** [parse_fixations] *)

(** An entry of [Efix] as [read_edf] builds it:
    [[starttime, endtime, duration, endx, endy]].  A sequence that does
    not unpack into five values is outside this type. *)
Definition fixation : Type := (Z * Z * Z * pyfloat * pyfloat)%type.

(** The dict [fix] with its three float arrays. *)
Module Fix.
Record t : Type := mk {
  x : list pyfloat;
  y : list pyfloat;
  dur : list pyfloat
}.
End Fix.

(** [numpy.zeros(n)] *)
Definition zeros (n : nat) : list pyfloat := repeat zero n.

(** The float stored when an int is assigned into a float array: the
    nearest binary64 value, ties to even; an int too large for a float
    raises [OverflowError]. *)
Definition float_of_int (n : Z) : result pyfloat :=
  match binary_normalize prec emax n 0 false with
  | S754_infinity _ => Raise OverflowError
  | v => OK v
  end.

(** [for fixnr in range(len(fixations)):] over the indices still to
    come. *)
Fixpoint parse_fixations_loop (fixations : list fixation)
    (fixnrs : list nat) (fix_ : Fix.t) : result Fix.t :=
  match fixnrs with
  | [] => OK fix_
  | fixnr :: rest =>
      e <- index fixations fixnr ;;
      let '(stime, etime, dur, ex, ey) := e in
      let xs := setitem (Fix.x fix_) fixnr ex in
      let ys := setitem (Fix.y fix_) fixnr ey in
      d <- float_of_int dur ;;
      parse_fixations_loop fixations rest
        (Fix.mk xs ys (setitem (Fix.dur fix_) fixnr d))
  end.

Definition parse_fixations (fixations : list fixation) : result Fix.t :=
  let n := List.length fixations in
  parse_fixations_loop fixations (seq 0 n)
    (Fix.mk (zeros n) (zeros n) (zeros n)).

(** ** [draw_display] and [draw_raw]

    The calls into [os.path], numpy and matplotlib are parameters of the
    model; what is modelled is the control flow around them, the order in
    which they can raise, and the arithmetic on the display and image
    sizes.  [dispsize] is a pair of ints, [(width, height)]. *)

(** [os.path.splitext(None)] raises [TypeError]; the library calls raise
    what they raise. *)
Inductive plot_exn : Type :=
| TypeError
| Lifted (e : exn).

Inductive outcome (A : Type) : Type :=
| Returns (a : A)
| Fails (e : plot_exn).

Arguments Returns {A} a.
Arguments Fails {A} e.

Definition and_then {A B : Type} (r : outcome A) (k : A -> outcome B)
  : outcome B :=
  match r with
  | Returns a => k a
  | Fails e => Fails e
  end.

Notation "x <~ e ;; k" := (and_then e (fun x => k))
  (at level 100, e at next level, right associativity).

Definition lift {A : Type} (r : result A) : outcome A :=
  match r with
  | OK a => Returns a
  | Raise e => Fails (Lifted e)
  end.

Inductive dtype : Type := float32 | uint8.

(** [text.lower()] on ASCII text. *)
Fixpoint lower_string (s : string) : string :=
  match s with
  | EmptyString => EmptyString
  | String c s' => String (lower c) (lower_string s')
  end.

(** [a / p] for an int [a] and a positive int [p]: the float nearest to
    the quotient; [OverflowError] when it is too large for a float. *)
Definition truediv_pos (a : Z) (p : positive) : result pyfloat :=
  let round (neg : bool) (m : positive) :=
    let '(q, e, l) := SFdiv_core_binary prec emax (Zpos m) 0 (Zpos p) 0 in
    match binary_round_aux prec emax neg q e l with
    | S754_infinity _ => Raise OverflowError
    | v => OK v
    end in
  match a with
  | Z0 => OK zero
  | Zpos m => round false m
  | Zneg m => round true m
  end.

(** [dpi = 100.0] *)
Definition dpi : pyfloat := of_decimal false 100 0.

Section Plot.

(** [os.path.splitext] on a [str], and [os.path.isfile]. *)
Variable splitext : string -> string * string.
Variable isfile : string -> bool.

(** [image.imread]: an image is a sequence of rows of pixels. *)
Variable Px : Type.
Variable imread : string -> outcome (list (list Px)).

(** [numpy.zeros((rows, cols, 3), dtype=data_type)], and
    [screen[y0:y1, x0:x1, :] += img]. *)
Variable Screen : Type.
Variable np_zeros : Z -> Z -> dtype -> outcome Screen.
Variable np_iadd : Screen -> Z -> Z -> Z -> Z -> list (list Px) -> outcome Screen.

(** The figure and its axes, and the calls that make them from
    [figsize], [dispsize] and [screen]: [pyplot.figure], [pyplot.Axes],
    [set_axis_off], [add_axes], [axis] and [imshow]. *)
Variable Figure : Type.
Variable show_screen : pyfloat * pyfloat -> Z * Z -> Screen -> outcome Figure.

(** [ax.plot(x, y, 'o', ...)], [ax.invert_yaxis()] and
    [fig.savefig(savefilename)]. *)
Variable plot_points : Figure -> list pyfloat -> list pyfloat -> outcome Figure.
Variable invert_yaxis : Figure -> outcome Figure.
Variable savefig : Figure -> string -> outcome Figure.

(** The block under [if imagefile != None:] for the file [f]. *)
Definition draw_image (dispsize : Z * Z) (f : string) (screen : Screen)
  : outcome Screen :=
  if negb (isfile f) then Fails (Lifted FileError)
  else
    img <~ imread f ;;
    row0 <~ lift (index img 0) ;;
    let w := Z.of_nat (List.length row0) in
    let h := Z.of_nat (List.length img) in
    d0 <~ lift (truediv_pos (fst dispsize) 2) ;;
    w2 <~ lift (truediv_pos w 2) ;;
    let x := SFsub prec emax d0 w2 in
    d1 <~ lift (truediv_pos (snd dispsize) 2) ;;
    h2 <~ lift (truediv_pos h 2) ;;
    let y := SFsub prec emax d1 h2 in
    y0 <~ lift (int (Float y)) ;;
    hf <~ lift (float_of_int h) ;;
    y1 <~ lift (int (Float (SFadd prec emax y hf))) ;;
    x0 <~ lift (int (Float x)) ;;
    wf <~ lift (float_of_int w) ;;
    x1 <~ lift (int (Float (SFadd prec emax x wf))) ;;
    np_iadd screen y0 y1 x0 x1 img.

Definition draw_display (dispsize : Z * Z) (imagefile : option string)
  : outcome Figure :=
  ext <~ match imagefile with
         | None => Fails TypeError
         | Some f => Returns (snd (splitext f))
         end ;;
  let ext := lower_string ext in
  let data_type := if (ext =? ".png")%string then float32 else uint8 in
  screen <~ np_zeros (snd dispsize) (fst dispsize) data_type ;;
  screen <~ match imagefile with
            | Some f => draw_image dispsize f screen
            | None => Returns screen
            end ;;
  fw <~ lift (float_of_int (fst dispsize)) ;;
  fh <~ lift (float_of_int (snd dispsize)) ;;
  let figsize := (SFdiv prec emax fw dpi, SFdiv prec emax fh dpi) in
  show_screen figsize dispsize screen.

(** [draw_raw] returns nothing; the model returns the figure it has
    drawn. *)
Definition draw_raw (x y : list pyfloat) (dispsize : Z * Z)
    (imagefile savefilename : option string) : outcome Figure :=
  fig <~ draw_display dispsize imagefile ;;
  fig <~ plot_points fig x y ;;
  fig <~ invert_yaxis fig ;;
  match savefilename with
  | Some name => savefig fig name
  | None => Returns fig
  end.

End Plot.

(** ** Vocabulary of the statements *)

(** The line carries one of the seven tags tested by [parse_line]. *)
Definition recognized (line : string) : bool :=
  ((slice line 0 3 =? "MSG") || (slice line 0 6 =? "SFIX L")
   || (slice line 0 6 =? "EFIX L") || (slice line 0 7 =? "SSACC L")
   || (slice line 0 7 =? "ESACC L") || (slice line 0 6 =? "SBLINK")
   || (slice line 0 6 =? "EBLINK"))%string.

(** The first tab-delimited field of a line. *)
Definition first_field (line : string) : string := hd "" (fields line).

(** [line] is parsed inside an open trial: after the first half of the
    loop body, which leaves the locals [st1], [started] is true. *)
Definition open_at (start : string) (stop : option string)
    (finalline line : string) (st st1 : Locals.t) : Prop :=
  check_started start stop finalline line st = OK st1 /\
  Locals.started st1 = true.

(** The five sample sequences of a trial have one length. *)
Definition aligned (T : Trial.t) : Prop :=
  List.length (Trial.x T) = List.length (Trial.y T) /\
  List.length (Trial.y T) = List.length (Trial.size T) /\
  List.length (Trial.size T) = List.length (Trial.time T) /\
  List.length (Trial.time T) = List.length (Trial.trackertime T).

(** [n] space characters. *)
Fixpoint spaces (n : nat) : string :=
  match n with
  | O => ""
  | S n' => String " " (spaces n')
  end.

(** A space character stands inside the text that [float] reads once the
    white space around it is stripped. *)
Definition space_inside (value : string) : Prop :=
  In " "%char (strip (list_ascii_of_string value)).

(** The buffers are aligned, and so is every trial already in [data]. *)
Definition inv (st : Locals.t) : Prop :=
  aligned (Locals.trial st) /\ Forall aligned (Locals.data st).

(** The relative times of a trial are its tracker times moved by one
    origin [s]. *)
Definition shifted (T : Trial.t) : Prop :=
  exists s, Trial.time T = map (fun t => t - s) (Trial.trackertime T).

(** While no trial is open the time buffers are empty; the relative times
    collected so far have [starttime] as their origin. *)
Definition origin_inv (st : Locals.t) : Prop :=
  (Locals.started st = false ->
   Locals.time st = [] /\ Locals.trackertime st = []) /\
  Locals.time st =
    map (fun t => t - Locals.starttime st) (Locals.trackertime st) /\
  Forall shifted (Locals.data st).

(** ** Example logs *)

(** A log whose second line has the text of its last line. *)
Definition log_repeated_last_line : list string :=
  ["MSG" ++ TAB ++ "100 TRIALSTART" ++ LF;
   "END" ++ LF;
   "150" ++ TAB ++ " 1.0" ++ TAB ++ " 2.0" ++ TAB ++ " 3.0" ++ TAB ++ "..." ++ LF;
   "END" ++ LF].

(** A log in which a second start line closes the first trial. *)
Definition log_two_starts : list string :=
  ["MSG" ++ TAB ++ "100 TRIALSTART" ++ LF;
   "MSG" ++ TAB ++ "200 TRIALSTART" ++ LF;
   "250" ++ TAB ++ " 1.0" ++ TAB ++ " 2.0" ++ TAB ++ " 3.0" ++ TAB ++ "..." ++ LF;
   "MSG" ++ TAB ++ "300 TRIALSTART" ++ LF].

(** The two lines of scenario 1. *)
Definition log_scenario_1 : list string :=
  ["MSG" ++ TAB ++ "100 TRIALSTART" ++ LF;
   "MSG" ++ TAB ++ "100 TRIALNR END" ++ LF].

(** Two lines of a file header. *)
Definition log_header : list string :=
  ["** CONVERTED FROM 1.edf" ++ LF; "250" ++ TAB ++ "1" ++ LF].

(** A log with a stop marker: two trials are closed, a third is left
    open. *)
Definition log_with_stop : list string :=
  ["MSG" ++ TAB ++ "100 TRIALSTART" ++ LF;
   "150" ++ TAB ++ " 1.0" ++ TAB ++ " 2.0" ++ TAB ++ " 3.0" ++ TAB ++ "..." ++ LF;
   "MSG" ++ TAB ++ "190 TRIALEND" ++ LF;
   "195" ++ TAB ++ " 1.0" ++ TAB ++ " 2.0" ++ TAB ++ " 3.0" ++ TAB ++ "..." ++ LF;
   "MSG" ++ TAB ++ "200 TRIALSTART" ++ LF;
   "250" ++ TAB ++ " 1.5" ++ TAB ++ " 2.5" ++ TAB ++ " 0.0" ++ TAB ++ "..." ++ LF;
   "MSG" ++ TAB ++ "290 TRIALEND" ++ LF;
   "MSG" ++ TAB ++ "300 TRIALSTART" ++ LF;
   "350" ++ TAB ++ " 1.0" ++ TAB ++ " 2.0" ++ TAB ++ " 3.0" ++ TAB ++ "..." ++ LF].

(** ** Vocabulary of the further properties *)

(** The time origins of the trials closed within [raw] when a stop marker
    is configured, read as a two-state machine: a line containing [start]
    met while no trial is open opens one, whose origin is the time stamp
    of that line; the next line containing [stop] closes it.  [cur] is
    the origin of the trial open before [raw], if there is one. *)
Fixpoint origins (start stop : string) (cur : option Z) (raw : list string)
  : list Z :=
  match raw with
  | [] => []
  | line :: rest =>
      match cur with
      | Some t0 =>
          if contains stop line then t0 :: origins start stop None rest
          else origins start stop (Some t0) rest
      | None =>
          if contains start line then
            match start_timestamp line with
            | OK t => origins start stop (Some t) rest
            | Raise _ => []
            end
          else origins start stop None rest
      end
  end.

(** The relative times of [T] are its tracker times less [t0]. *)
Definition has_origin (t0 : Z) (T : Trial.t) : Prop :=
  Trial.time T = map (fun t => t - t0) (Trial.trackertime T).

(** [numpy.array] keeps a list of ints as it is, with a 64-bit integer
    element type, when every int of the list fits in a signed 64-bit
    integer: then the arrays [time] and [trackertime] of the trial hold
    the values of the lists. *)
Definition int64 (v : Z) : Prop := - 2 ^ 63 <= v < 2 ^ 63.

Definition exact_times (T : Trial.t) : Prop :=
  Forall int64 (Trial.time T) /\ Forall int64 (Trial.trackertime T).

(** Without a stop marker, the lines that close a trial once one is
    open. *)
Definition boundary (start finalline line : string) : bool :=
  contains start line || (line =? finalline)%string.

(** A file system that holds one file, [face.png]. *)
Definition toy_isfile (f : string) : bool := (f =? "face.png")%string.

(** The fields of a fixation end event. *)
Definition fix_dur (e : fixation) : Z := let '(_, _, d, _, _) := e in d.
Definition fix_x (e : fixation) : pyfloat := let '(_, _, _, ex, _) := e in ex.
Definition fix_y (e : fixation) : pyfloat := let '(_, _, _, _, ey) := e in ey.

(** [f] applied to every element in turn, up to the first exception. *)
Fixpoint map_result {A B : Type} (f : A -> result B) (l : list A)
  : result (list B) :=
  match l with
  | [] => OK []
  | a :: l' => b <- f a ;; bs <- map_result f l' ;; OK (b :: bs)
  end.

(** ** The error monad *)

Lemma bind_OK {A B : Type} (r : result A) (k : A -> result B) (b : B) :
  bind r k = OK b -> exists a, r = OK a /\ k a = OK b.
Proof.
  destruct r as [a|e]; simpl; intros H; [eauto | discriminate].
Qed.

Ltac bind_inv H :=
  repeat match type of H with
    | bind ?r ?k = OK _ =>
        let a := fresh "a" in
        let E := fresh "E" in
        apply bind_OK in H; destruct H as (a & E & H)
    | (if ?b then _ else _) = OK _ => destruct b eqn:?
    | (match ?r with OK _ => _ | Raise _ => _ end) = OK _ => destruct r eqn:?
    | Raise _ = OK _ => discriminate H
    end.

(** ** The sample sequences grow together *)

Section Invariant.

Variable start : string.
Variable stop : option string.
Variable missing : pyfloat.

Lemma inv_init : inv Locals.init.
Proof. repeat split; constructor. Qed.

Lemma inv_set_events e st : inv st -> inv (Locals.set_events e st).
Proof. intros H; exact H. Qed.

Lemma inv_end_trial b st : inv st -> inv (end_trial b st).
Proof.
  intros [Hb Hd]. split.
  - repeat split.
  - simpl. apply Forall_app. split; [exact Hd | constructor; [exact Hb | constructor]].
Qed.

Lemma check_started_inv fl line st st1 :
  check_started start stop fl line st = OK st1 -> inv st -> inv st1.
Proof.
  unfold check_started. intros H I.
  destruct (Locals.started st).
  - destruct stop as [s|].
    + destruct (contains s line); inversion H; subst; auto using inv_end_trial.
    + destruct (contains start line || (line =? fl)%string);
        inversion H; subst; auto using inv_end_trial.
  - bind_inv H; inversion H; subst; auto.
Qed.

Lemma sample_line_inv line st st' :
  sample_line line st = OK st' -> inv st -> inv st'.
Proof.
  unfold sample_line. intros H I.
  destruct (v0 <- index (map Str (fields line)) 0 ;; int v0).
  - bind_inv H. inversion H; subst; clear H.
    destruct I as [(Hxy & Hys & Hst & Htt) Hd]. simpl in *.
    split; [|exact Hd]. unfold aligned, Locals.append_sample; simpl.
    rewrite !length_app; simpl. lia.
  - inversion H; subst; exact I.
Qed.

Lemma parse_line_inv line st st' :
  parse_line missing line st = OK st' -> inv st -> inv st'.
Proof.
  unfold parse_line. intros H I.
  repeat match type of H with
    | (if ?b then _ else _) = OK _ => destruct b
    end;
    try (bind_inv H; inversion H; subst; apply inv_set_events; exact I).
  eapply sample_line_inv; eauto.
Qed.

Lemma step_inv fl line st st' :
  step start stop missing fl st line = OK st' -> inv st -> inv st'.
Proof.
  unfold step. intros H I.
  apply bind_OK in H. destruct H as (st1 & E & H).
  apply check_started_inv in E; [|exact I].
  destruct (Locals.started st1).
  - eapply parse_line_inv; eauto.
  - inversion H; subst; exact E.
Qed.

Lemma loop_inv fl raw : forall st st',
  loop start stop missing fl raw st = OK st' -> inv st -> inv st'.
Proof.
  induction raw as [|line rest IH]; simpl; intros st st' H I.
  - inversion H; subst; exact I.
  - apply bind_OK in H. destruct H as (st1 & E & H).
    eapply IH; [exact H|]. eapply step_inv; eauto.
Qed.

End Invariant.

(** C2: in the list returned by [read_edf], the sequences [x], [y],
    [size], [time] and [trackertime] of every trial have the same
    length. *)
Theorem C2_sample_sequences_aligned :
  forall start stop missing file data,
    read_edf start stop missing file = OK data ->
    Forall aligned data.
Proof.
  intros start stop missing [raw|] data H; simpl in H; [|discriminate].
  apply bind_OK in H. destruct H as (fl & _ & H).
  apply bind_OK in H. destruct H as (st & E & H).
  inversion H; subst.
  apply (loop_inv _ _ _ _ _ _ _ E inv_init).
Qed.

Lemma C2_sample_sequences_aligned_witness :
  exists data,
    read_edf "TRIALSTART" None zero
      (Some ["MSG" ++ TAB ++ "100 TRIALSTART" ++ LF;
             "250" ++ TAB ++ " 1.5" ++ TAB ++ " 2.5" ++ TAB ++ " 3.0" ++ LF;
             "251" ++ TAB ++ " 1.5" ++ TAB ++ " 2.5" ++ TAB ++ " 0.0" ++ LF;
             "MSG" ++ TAB ++ "300 TRIALSTART" ++ LF]) = OK data /\
    List.length data = 1%nat /\
    Forall aligned data.
Proof.
  eexists. split; [vm_compute; reflexivity|]. split; [reflexivity|].
  apply (C2_sample_sequences_aligned "TRIALSTART" None zero
           (Some ["MSG" ++ TAB ++ "100 TRIALSTART" ++ LF;
                  "250" ++ TAB ++ " 1.5" ++ TAB ++ " 2.5" ++ TAB ++ " 3.0" ++ LF;
                  "251" ++ TAB ++ " 1.5" ++ TAB ++ " 2.5" ++ TAB ++ " 0.0" ++ LF;
                  "MSG" ++ TAB ++ "300 TRIALSTART" ++ LF])).
  vm_compute; reflexivity.
Defined.

(** ** White space around a number *)

Lemma chars_app (a b : string) :
  list_ascii_of_string (a ++ b) =
  (list_ascii_of_string a ++ list_ascii_of_string b)%list.
Proof.
  induction a as [|c a IH]; simpl; [reflexivity | now rewrite IH].
Qed.

Lemma chars_spaces n : Forall (fun c => is_space c = true)
                              (list_ascii_of_string (spaces n)).
Proof.
  induction n; simpl; constructor; [reflexivity | assumption].
Qed.

Lemma rstrip_blank ws :
  Forall (fun c => is_space c = true) ws -> rstrip ws = [].
Proof.
  induction 1 as [|c ws Hc _ IH]; simpl; [reflexivity|].
  now rewrite IH, Hc.
Qed.

Lemma rstrip_app_blank l ws :
  Forall (fun c => is_space c = true) ws ->
  rstrip (l ++ ws)%list = rstrip l.
Proof.
  intros Hws. induction l as [|c l IH]; simpl.
  - now apply rstrip_blank.
  - now rewrite IH.
Qed.

Lemma strip_blank_app ws l :
  Forall (fun c => is_space c = true) ws ->
  strip (ws ++ l)%list = strip l.
Proof.
  unfold strip. induction 1 as [|c ws Hc _ IH]; simpl; [reflexivity|].
  destruct (rstrip (ws ++ l)%list) as [|a r] eqn:E.
  - rewrite Hc. simpl in IH. exact IH.
  - simpl. rewrite Hc. exact IH.
Qed.

(** [int] and [float] ignore white space on both sides of the text. *)
Lemma strip_padding ws l ws' :
  Forall (fun c => is_space c = true) ws ->
  Forall (fun c => is_space c = true) ws' ->
  strip (ws ++ l ++ ws')%list = strip l.
Proof.
  intros H H'. rewrite strip_blank_app by assumption.
  unfold strip. now rewrite rstrip_app_blank.
Qed.

Lemma float_of_string_padding n s k :
  float_of_string (spaces n ++ s ++ spaces k) = float_of_string s.
Proof.
  unfold float_of_string. rewrite !chars_app.
  now rewrite strip_padding by apply chars_spaces.
Qed.

Lemma int_of_string_padding n s k :
  int_of_string (spaces n ++ s ++ spaces k) = int_of_string s.
Proof.
  unfold int_of_string. rewrite !chars_app.
  now rewrite strip_padding by apply chars_spaces.
Qed.

Lemma remove_app c (a b : string) :
  remove c (a ++ b) = remove c a ++ remove c b.
Proof.
  induction a as [|x a IH]; simpl; [reflexivity|].
  destruct (Ascii.eqb x c); simpl; now rewrite IH.
Qed.

Lemma remove_spaces n : remove " " (spaces n) = "".
Proof. induction n; simpl; auto. Qed.

Lemma append_empty_r (s : string) : s ++ "" = s.
Proof. induction s as [|c s IH]; simpl; [reflexivity | now rewrite IH]. Qed.

Lemma remove_padding n s k :
  remove " " (spaces n ++ s ++ spaces k) = remove " " s.
Proof.
  rewrite !remove_app, !remove_spaces. simpl. apply append_empty_r.
Qed.

(** [float(text)] either returns a float or raises [ValueError]. *)
Lemma float_of_string_cases s :
  (exists v, float_of_string s = OK v) \/ float_of_string s = Raise ValueError.
Proof.
  unfold float_of_string.
  destruct (float_of_chars _); [left; eauto | right; reflexivity].
Qed.

(** *** A space inside a number

    Every character that [float] consumes is a digit, a sign, a period,
    an exponent mark or a letter of [inf], [infinity] or [nan]: a text
    that still holds a space after stripping is rejected. *)

Lemma span_digits_spec l : forall d r,
  span_digits l = (d, r) -> l = (d ++ r)%list /\ ~ In " "%char d.
Proof.
  induction l as [|c l IH]; intros d r H; cbn [span_digits] in H.
  - injection H as <- <-. split; [reflexivity | intros []].
  - destruct (is_digit c) eqn:D.
    + destruct (span_digits l) as [d' r'] eqn:E. injection H as <- <-.
      destruct (IH d' r' eq_refl) as [-> N]. split; [reflexivity|].
      intros [Hc|I]; [subst c; vm_compute in D; discriminate D | exact (N I)].
    + injection H as <- <-. split; [reflexivity | intros []].
Qed.

Lemma sign_spec l : In " "%char l -> In " "%char (snd (sign l)).
Proof.
  destruct l as [|c r]; [intros [] |].
  intros [Hc|I].
  - subst c. left. reflexivity.
  - destruct c as [[] [] [] [] [] [] [] []]; simpl; auto.
Qed.

Lemma exponent_spec r e : exponent r = Some e -> ~ In " "%char r.
Proof.
  destruct r as [|c l']; [intros _ [] |]. cbn [exponent].
  destruct (Ascii.eqb (lower c) "e") eqn:E; [|discriminate].
  pose proof (sign_spec l') as Hs.
  destruct (sign l') as [neg l''] eqn:S. cbn [snd] in Hs.
  destruct (span_digits l'') as [ds rest] eqn:D.
  destruct ds as [|d0 ds]; [discriminate|].
  destruct rest; [|discriminate].
  intros _ [Hc|I].
  - subst c. vm_compute in E. discriminate E.
  - apply span_digits_spec in D. destruct D as [-> N].
    rewrite app_nil_r in Hs. exact (N (Hs I)).
Qed.

Lemma fraction_spec r1 fp r2 :
  match r1 with
  | "."%char :: r => span_digits r
  | _ => ([], r1)
  end = (fp, r2) ->
  In " "%char r1 -> In " "%char r2.
Proof.
  destruct r1 as [|c r]; [intros _ [] |].
  destruct (ascii_dec c ".") as [->|N].
  - intros H I. apply span_digits_spec in H. destruct H as [-> Nd].
    destruct I as [Hc|I]; [discriminate Hc|].
    apply in_app_or in I. destruct I as [I|I]; [contradiction | exact I].
  - intros H I.
    destruct c as [[] [] [] [] [] [] [] []];
      try (exfalso; apply N; reflexivity);
      injection H as <- <-; exact I.
Qed.

Lemma decimal_spec neg l v : decimal neg l = Some v -> ~ In " "%char l.
Proof.
  unfold decimal. destruct (span_digits l) as [ip r1] eqn:E1.
  apply span_digits_spec in E1. destruct E1 as [-> N1].
  destruct (match r1 with
            | "."%char :: r => span_digits r
            | _ => ([], r1)
            end) as [fp r2] eqn:E2.
  intros H I. apply in_app_or in I. destruct I as [I|I]; [contradiction|].
  apply (fraction_spec _ _ _ E2) in I.
  destruct (ip ++ fp)%list; [discriminate|].
  destruct (exponent r2) eqn:Ex; [|discriminate].
  apply exponent_spec in Ex. contradiction.
Qed.

Lemma inf_or_nan_spec neg l v : inf_or_nan neg l = Some v -> ~ In " "%char l.
Proof.
  unfold inf_or_nan. intros H I.
  assert (Hw : In " "%char
                 (list_ascii_of_string (string_of_list_ascii (map lower l)))).
  { rewrite list_ascii_of_string_of_list_ascii.
    apply (in_map lower l " "%char I). }
  destruct (string_of_list_ascii (map lower l) =? "inf")%string eqn:E1.
  { apply String.eqb_eq in E1. rewrite E1 in Hw. vm_compute in Hw.
    intuition discriminate. }
  destruct (string_of_list_ascii (map lower l) =? "infinity")%string eqn:E2.
  { apply String.eqb_eq in E2. rewrite E2 in Hw. vm_compute in Hw.
    intuition discriminate. }
  destruct (string_of_list_ascii (map lower l) =? "nan")%string eqn:E3.
  { apply String.eqb_eq in E3. rewrite E3 in Hw. vm_compute in Hw.
    intuition discriminate. }
  discriminate H.
Qed.

Lemma drop_underscores_spec l : forall prev l',
  drop_underscores prev l = Some l' -> In " "%char l -> In " "%char l'.
Proof.
  induction l as [|c l IH]; intros prev l' H I; [destruct I|].
  cbn [drop_underscores] in H.
  destruct (Ascii.eqb c "_") eqn:U.
  - destruct (is_digit prev); [|discriminate].
    apply (IH c l' H). destruct I as [Hc|I]; [|exact I].
    subst c. vm_compute in U. discriminate U.
  - destruct (Ascii.eqb prev "_" && negb (is_digit c)); [discriminate|].
    destruct (drop_underscores c l) as [l''|] eqn:E; [|discriminate].
    injection H as <-.
    destruct I as [Hc|I]; [left; exact Hc | right; eapply IH; eauto].
Qed.

Lemma float_of_chars_space l : In " "%char l -> float_of_chars l = None.
Proof.
  intros I. unfold float_of_chars.
  destruct (drop_underscores "000" l) as [l'|] eqn:E; [|reflexivity].
  apply (drop_underscores_spec _ _ _ E) in I. apply sign_spec in I.
  destruct (sign l') as [neg body]. cbn [snd] in I.
  destruct (inf_or_nan neg body) as [v|] eqn:Ei.
  { apply inf_or_nan_spec in Ei. contradiction. }
  destruct (decimal neg body) as [v|] eqn:Ed; [|reflexivity].
  apply decimal_spec in Ed. contradiction.
Qed.

(** [float] rejects a number with a space inside it. *)
Lemma float_of_string_space_inside value :
  space_inside value -> float_of_string value = Raise ValueError.
Proof.
  intros I. unfold float_of_string. now rewrite float_of_chars_space.
Qed.

(** C5 as the code has it: [replace_missing] returns [missing] when the
    field without its space characters is a single period; otherwise it
    returns what [float] reads from the field, which may itself be the
    missing code, and raises [ValueError] when [float] reads nothing from
    it.  [float] tolerates the space characters before and after the
    number, not one inside it: a field that is not missing and holds a
    space inside the number raises [ValueError]. *)
Theorem C5_replace_missing_as_coded :
  forall value missing,
    (remove " " value = "." -> replace_missing value missing = OK missing) /\
    (remove " " value <> "." ->
       forall v, float_of_string value = OK v ->
                 replace_missing value missing = OK v) /\
    (remove " " value <> "." ->
       (forall v, float_of_string value <> OK v) ->
       replace_missing value missing = Raise ValueError) /\
    (forall n k,
       replace_missing (spaces n ++ value ++ spaces k) missing =
       replace_missing value missing) /\
    (remove " " value <> "." ->
       space_inside value ->
       replace_missing value missing = Raise ValueError).
Proof.
  intros value missing. unfold replace_missing.
  split; [|split; [|split; [|split]]].
  - intros ->. reflexivity.
  - intros Hn v Hv. apply String.eqb_neq in Hn. now rewrite Hn.
  - intros Hn Hv. apply String.eqb_neq in Hn. rewrite Hn.
    destruct (float_of_string_cases value) as [[v E]|E]; [|exact E].
    now elim (Hv v).
  - intros n k. now rewrite remove_padding, float_of_string_padding.
  - intros Hn I. apply String.eqb_neq in Hn. rewrite Hn.
    now apply float_of_string_space_inside.
Qed.

Lemma C5_replace_missing_as_coded_witness :
  replace_missing " . " (S754_infinity true) = OK (S754_infinity true) /\
  replace_missing "  300.5" zero = OK (S754_finite false 5286451906347008 (-44)) /\
  replace_missing "abc" zero = Raise ValueError /\
  replace_missing "  3 00.5 " zero = Raise ValueError.
Proof.
  split; [|split; [|split]].
  - apply (proj1 (C5_replace_missing_as_coded " . " (S754_infinity true))).
    reflexivity.
  - apply (proj1 (proj2 (C5_replace_missing_as_coded "  300.5" zero))).
    + discriminate.
    + vm_compute; reflexivity.
  - apply (proj1 (proj2 (proj2 (C5_replace_missing_as_coded "abc" zero)))).
    + discriminate.
    + intros v; vm_compute; discriminate.
  - apply (proj2 (proj2 (proj2 (proj2
             (C5_replace_missing_as_coded "  3 00.5 " zero))))).
    + discriminate.
    + vm_compute. right. left. reflexivity.
Defined.

(** C5 as the specification has it fails twice.  The field [3 00.5] is
    not missing and reads as 300.5 once its space is removed, yet
    [replace_missing] raises [ValueError] on it: a space inside the number
    is not tolerated.  And with the missing code 0.0 the field [0.0] gives
    the missing code although it is not a period. *)
Lemma C5_embedded_space_counterexample :
  (remove " " "3 00.5" <> "." /\
   float_of_string (remove " " "3 00.5") = OK (of_decimal false 3005 (-1)) /\
   replace_missing "3 00.5" zero = Raise ValueError) /\
  (remove " " "0.0" <> "." /\ replace_missing "0.0" zero = OK zero).
Proof.
  split; [split; [discriminate | split; vm_compute; reflexivity]|].
  split; [discriminate | vm_compute; reflexivity].
Qed.

(** Scenario 4: the period of an [EFIX L] line is decoded to the missing
    code. *)
Example scenario_4_efix :
  parse_line zero
    ("EFIX L   100" ++ TAB ++ "200" ++ TAB ++ "100" ++ TAB ++ "." ++ TAB ++ "300.5")
    (Locals.fresh_trial 0) =
  OK (Locals.set_events
        (Events.mk [] [] [] [(100, 200, 100, zero, of_decimal false 3005 (-1))]
           [] [] [])
        (Locals.fresh_trial 0)).
Proof. vm_compute. reflexivity. Qed.

(** ** One step of the loop inside an open trial *)

Lemma step_open start stop missing fl line st st1 :
  open_at start stop fl line st st1 ->
  step start stop missing fl st line = parse_line missing line st1.
Proof.
  intros [E S]. unfold step. rewrite E. simpl. now rewrite S.
Qed.

Lemma parse_line_unrecognized missing line st :
  recognized line = false ->
  parse_line missing line st = sample_line line st.
Proof.
  unfold recognized, parse_line. intros H.
  repeat (apply orb_false_elim in H; destruct H as [H ?]).
  repeat match goal with E : (_ =? _)%string = false |- _ => rewrite E; clear E end.
  reflexivity.
Qed.

Lemma fields_nonempty line : fields line <> [].
Proof.
  unfold fields. induction line as [|c s IH]; simpl; [discriminate|].
  destruct (Ascii.eqb c "009"); [discriminate|].
  destruct (split "009" s); [contradiction | discriminate].
Qed.

Lemma first_field_index line :
  index (map Str (fields line)) 0 = OK (Str (first_field line)).
Proof.
  unfold first_field. pose proof (fields_nonempty line) as H.
  destruct (fields line); [contradiction | reflexivity].
Qed.

(** A line whose first field is not an integer is dropped. *)
Lemma sample_line_skip line st e :
  int_of_string (first_field line) = Raise e ->
  sample_line line st = OK st.
Proof.
  intros H. unfold sample_line. rewrite first_field_index. simpl.
  now rewrite H.
Qed.

(** With fewer than four fields, [l[3]] is out of range. *)
Lemma sample_line_short line st t :
  int_of_string (first_field line) = OK t ->
  (List.length (fields line) < 4)%nat ->
  sample_line line st = Raise IndexError.
Proof.
  intros H L. unfold sample_line. rewrite first_field_index. simpl.
  rewrite H. unfold index at 1.
  replace (nth_error (map Str (fields line)) 3) with (@None value);
    [reflexivity|].
  symmetry. apply nth_error_None. rewrite length_map. lia.
Qed.

(** A pupil size equal to zero overrides both gaze coordinates. *)
Lemma sample_line_zero_size line st t s3 f3 :
  int_of_string (first_field line) = OK t ->
  nth_error (fields line) 3 = Some s3 ->
  float_of_string s3 = OK f3 ->
  feqb f3 zero = true ->
  sample_line line st =
  OK (Locals.append_sample zero zero f3 (t - Locals.starttime st) t st).
Proof.
  unfold sample_line, first_field. intros H0 H3 Hf Hz.
  destruct (fields line) as [|a [|b [|c [|d rest]]]]; try discriminate.
  simpl in H0, H3. injection H3 as ->.
  cbn [map index nth_error bind int float setitem].
  rewrite H0. cbn [bind]. rewrite Hf. cbn [bind]. rewrite Hz.
  cbn [map index nth_error bind int float setitem].
  rewrite H0, Hf. reflexivity.
Qed.

(** C4: a sample line parsed inside an open trial whose fourth field is
    read by [float] as a value equal to zero appends 0.0 to [x] and to
    [y], whatever its second and third fields hold, together with the
    pupil size, the time relative to [starttime] and the tracker time. *)
Theorem C4_zero_pupil_size_zeroes_gaze :
  forall start stop missing fl line st st1 t s3 f3,
    open_at start stop fl line st st1 ->
    recognized line = false ->
    int_of_string (first_field line) = OK t ->
    nth_error (fields line) 3 = Some s3 ->
    float_of_string s3 = OK f3 ->
    feqb f3 zero = true ->
    step start stop missing fl st line =
    OK (Locals.append_sample zero zero f3 (t - Locals.starttime st1) t st1).
Proof.
  intros start stop missing fl line st st1 t s3 f3 Ho Hr H0 H3 Hf Hz.
  rewrite (step_open _ _ _ _ _ _ _ Ho).
  rewrite parse_line_unrecognized by assumption.
  eapply sample_line_zero_size; eauto.
Qed.

Lemma C4_zero_pupil_size_zeroes_gaze_witness :
  step "TRIALSTART" None zero ("END" ++ LF) (Locals.fresh_trial 900)
    ("1000" ++ TAB ++ "  50.0" ++ TAB ++ "  60.0" ++ TAB ++ " 0.0" ++ TAB ++ "...") =
  OK (Locals.mk [] [zero] [zero] [zero] [100] [1000] Events.empty 900 true).
Proof.
  apply (C4_zero_pupil_size_zeroes_gaze "TRIALSTART" None zero ("END" ++ LF)
           ("1000" ++ TAB ++ "  50.0" ++ TAB ++ "  60.0" ++ TAB ++ " 0.0" ++ TAB ++ "...")
           (Locals.fresh_trial 900) (Locals.fresh_trial 900) 1000 " 0.0" zero).
  - split; reflexivity.
  - reflexivity.
  - reflexivity.
  - reflexivity.
  - reflexivity.
  - reflexivity.
Defined.

(** C9: inside an open trial, a line without a recognized tag whose first
    tab-delimited field [int] rejects is skipped: the step returns the
    locals as they were when the line came to be parsed, raises nothing,
    and the loop goes on with the next line. *)
Theorem C9_malformed_sample_line_skipped :
  forall start stop missing fl line rest st st1 e,
    open_at start stop fl line st st1 ->
    recognized line = false ->
    int_of_string (first_field line) = Raise e ->
    step start stop missing fl st line = OK st1 /\
    loop start stop missing fl (line :: rest) st =
    loop start stop missing fl rest st1.
Proof.
  intros start stop missing fl line rest st st1 e Ho Hr H0.
  assert (E : step start stop missing fl st line = OK st1).
  { rewrite (step_open _ _ _ _ _ _ _ Ho).
    rewrite parse_line_unrecognized by assumption.
    eapply sample_line_skip; eauto. }
  split; [exact E|]. simpl. now rewrite E.
Qed.

Lemma C9_malformed_sample_line_skipped_witness :
  step "TRIALSTART" None zero ("END" ++ LF)
    (Locals.mk [] [zero] [zero] [zero] [100] [1000] Events.empty 900 true)
    ("** sample rate" ++ TAB ++ "1000" ++ LF) =
  OK (Locals.mk [] [zero] [zero] [zero] [100] [1000] Events.empty 900 true).
Proof.
  apply (C9_malformed_sample_line_skipped "TRIALSTART" None zero ("END" ++ LF)
           ("** sample rate" ++ TAB ++ "1000" ++ LF) []
           (Locals.mk [] [zero] [zero] [zero] [100] [1000] Events.empty 900 true)
           (Locals.mk [] [zero] [zero] [zero] [100] [1000] Events.empty 900 true)
           ValueError).
  - split; reflexivity.
  - reflexivity.
  - reflexivity.
Defined.

(** ** The whole loop *)

Lemma loop_app start stop missing fl pre post : forall st,
  loop start stop missing fl (pre ++ post)%list st =
  (st' <- loop start stop missing fl pre st ;;
   loop start stop missing fl post st').
Proof.
  induction pre as [|l pre IH]; simpl; intros st; [reflexivity|].
  destruct (step start stop missing fl st l); simpl; [apply IH | reflexivity].
Qed.

Lemma index_last_last {A : Type} (l : list A) (d : A) :
  l <> [] -> index_last l = OK (last l d).
Proof.
  induction l as [|a l IH]; [contradiction|].
  destruct l as [|b l]; [reflexivity|]. intros _.
  change (index_last (b :: l) = OK (last (b :: l) d)).
  apply IH. discriminate.
Qed.

(** C10: inside an open trial, a line without a recognized tag whose
    first field is an integer but which has fewer than four tab-delimited
    fields makes the step raise [IndexError], and with it the whole call
    of [read_edf]: no list of trials is returned. *)
Theorem C10_short_sample_line_raises :
  forall start stop missing pre line post st st1 t,
    let raw := (pre ++ line :: post)%list in
    let fl := last raw "" in
    loop start stop missing fl pre Locals.init = OK st ->
    open_at start stop fl line st st1 ->
    recognized line = false ->
    int_of_string (first_field line) = OK t ->
    (List.length (fields line) < 4)%nat ->
    step start stop missing fl st line = Raise IndexError /\
    read_edf start stop missing (Some raw) = Raise IndexError.
Proof.
  intros start stop missing pre line post st st1 t raw fl Hp Ho Hr H0 Hl.
  assert (E : step start stop missing fl st line = Raise IndexError).
  { rewrite (step_open _ _ _ _ _ _ _ Ho).
    rewrite parse_line_unrecognized by assumption.
    eapply sample_line_short; eauto. }
  split; [exact E|].
  unfold read_edf.
  rewrite (index_last_last raw "") by (unfold raw; now destruct pre).
  cbn [bind]. fold fl. unfold raw. rewrite loop_app, Hp.
  cbn [bind loop]. now rewrite E.
Qed.

Lemma C10_short_sample_line_raises_witness :
  read_edf "TRIALSTART" None zero
    (Some ["MSG" ++ TAB ++ "100 TRIALSTART" ++ LF;
           "1000" ++ TAB ++ "  50.0" ++ TAB ++ "  60.0" ++ LF;
           "END" ++ LF]) = Raise IndexError.
Proof.
  apply (C10_short_sample_line_raises "TRIALSTART" None zero
           ["MSG" ++ TAB ++ "100 TRIALSTART" ++ LF]
           ("1000" ++ TAB ++ "  50.0" ++ TAB ++ "  60.0" ++ LF)
           ["END" ++ LF]
           (Locals.mk [] [] [] [] [] []
              (Events.append_msg (100, "TRIALSTART" ++ LF) Events.empty)
              100 true)
           (Locals.mk [] [] [] [] [] []
              (Events.append_msg (100, "TRIALSTART" ++ LF) Events.empty)
              100 true)
           1000).
  - reflexivity.
  - split; reflexivity.
  - reflexivity.
  - reflexivity.
  - vm_compute. lia.
Defined.

(** C8 as the code has it: inside an open trial, the line
    [SFIX L  12345], in which two spaces follow the tag, adds the time
    stamp 2345 to [Sfix]: the text after the first nine characters is
    [2345]. *)
Theorem C8_sfix_reads_after_nine_characters :
  forall start stop missing fl st st1,
    open_at start stop fl "SFIX L  12345" st st1 ->
    slice_from "SFIX L  12345" 9 = "2345" /\
    step start stop missing fl st "SFIX L  12345" =
    OK (Locals.set_events (Events.append_Sfix 2345 (Locals.events st1)) st1).
Proof.
  intros start stop missing fl st st1 Ho.
  split; [reflexivity|].
  rewrite (step_open _ _ _ _ _ _ _ Ho). reflexivity.
Qed.

Lemma C8_sfix_reads_after_nine_characters_witness :
  step "TRIALSTART" None zero ("END" ++ LF) (Locals.fresh_trial 900)
    "SFIX L  12345" =
  OK (Locals.mk [] [] [] [] [] [] (Events.mk [2345] [] [] [] [] [] []) 900 true).
Proof.
  apply (C8_sfix_reads_after_nine_characters "TRIALSTART" None zero
           ("END" ++ LF) (Locals.fresh_trial 900) (Locals.fresh_trial 900)).
  split; reflexivity.
Defined.

(** C8 as the specification has it fails: in an open trial with an empty
    [Sfix], the line [SFIX L  12345] does not leave [Sfix] holding
    12345. *)
Lemma C8_sfix_12345_counterexample :
  ~ (exists st',
       step "TRIALSTART" None zero ("END" ++ LF) (Locals.fresh_trial 900)
         "SFIX L  12345" = OK st' /\
       Events.Sfix (Locals.events st') = [12345]).
Proof.
  intros (st' & E & H). vm_compute in E. inversion E; subst.
  discriminate H.
Qed.

(** ** Trial boundaries without a stop marker *)

(** What the code does at a line met while a trial is open and no stop
    marker is configured: the trial is closed, and a new one begun on the
    same line, when the line contains [start] or has the same text as
    the last line of the input; otherwise nothing changes. *)
Lemma implicit_stop_boundary start fl line st :
  Locals.started st = true ->
  check_started start None fl line st =
  OK (if contains start line || (line =? fl)%string
      then end_trial true st else st).
Proof.
  intros S. unfold check_started. rewrite S.
  now destruct (contains start line || (line =? fl)%string).
Qed.

(** C1 on [log_repeated_last_line]: its second line is not the last one
    and does not contain the start marker, yet the step on it closes the
    trial opened by the first line, so that the sample of the third line
    lands in a second trial and [read_edf] returns two trials. *)
Theorem C1_repeated_last_line_closes_trial :
  nth_error log_repeated_last_line 1 = Some ("END" ++ LF) /\
  List.length log_repeated_last_line = 4%nat /\
  contains "TRIALSTART" ("END" ++ LF) = false /\
  (exists st st',
     loop "TRIALSTART" None zero ("END" ++ LF)
       (firstn 1 log_repeated_last_line) Locals.init = OK st /\
     Locals.started st = true /\ Locals.data st = [] /\
     step "TRIALSTART" None zero ("END" ++ LF) st ("END" ++ LF) = OK st' /\
     Locals.data st' = [Locals.trial st]) /\
  (exists T1 T2,
     read_edf "TRIALSTART" None zero (Some log_repeated_last_line) =
     OK [T1; T2] /\
     Trial.trackertime T1 = [] /\ Trial.trackertime T2 = [150]).
Proof.
  split; [reflexivity|]. split; [reflexivity|]. split; [reflexivity|]. split.
  - eexists. eexists. split; [vm_compute; reflexivity|].
    split; [reflexivity|]. split; [reflexivity|].
    split; [vm_compute; reflexivity|]. reflexivity.
  - eexists. eexists. split; [vm_compute; reflexivity|].
    split; reflexivity.
Qed.

(** ** The time origin of a trial *)

(** C3 on [log_two_starts]: the second trial is opened by the line whose
    time stamp is 200 and holds one sample with tracker time 250, but its
    relative time is 150: [starttime] still holds the 100 of the first
    start line. *)
Theorem C3_second_trial_keeps_first_start_time :
  nth_error log_two_starts 1 = Some ("MSG" ++ TAB ++ "200 TRIALSTART" ++ LF) /\
  start_timestamp ("MSG" ++ TAB ++ "200 TRIALSTART" ++ LF) = OK 200 /\
  exists T1 T2,
    read_edf "TRIALSTART" None zero (Some log_two_starts) = OK [T1; T2] /\
    Events.msg (Trial.events T2) = [(200, "TRIALSTART" ++ LF)] /\
    Trial.trackertime T2 = [250] /\
    Trial.time T2 = [150] /\
    150 <> 250 - 200.
Proof.
  split; [reflexivity|]. split; [reflexivity|].
  eexists. eexists. split; [vm_compute; reflexivity|].
  repeat split. discriminate.
Qed.

(** What does hold of every returned trial: its relative times are its
    tracker times moved by one origin, the value of [starttime] when the
    trial was closed. *)
Section Origin.

Variable start : string.
Variable stop : option string.
Variable missing : pyfloat.

Lemma origin_end_trial b st : origin_inv st -> origin_inv (end_trial b st).
Proof.
  intros (_ & Ht & Hd). split; [now split|]. split; [reflexivity|].
  simpl. apply Forall_app. split; [exact Hd|].
  constructor; [|constructor]. exists (Locals.starttime st). exact Ht.
Qed.

Lemma origin_check_started fl line st st1 :
  check_started start stop fl line st = OK st1 ->
  origin_inv st -> origin_inv st1.
Proof.
  unfold check_started. intros H I.
  destruct (Locals.started st) eqn:S.
  - destruct stop as [s|].
    + destruct (contains s line); inversion H; subst;
        auto using origin_end_trial.
    + destruct (contains start line || (line =? fl)%string);
        inversion H; subst; auto using origin_end_trial.
  - bind_inv H; inversion H; subst; [|exact I].
    destruct I as (Hi & _ & Hd). destruct (Hi S) as [Ht Htt].
    split; [discriminate|]. split; [|exact Hd].
    simpl. now rewrite Ht, Htt.
Qed.

Lemma origin_sample_line line st st' :
  Locals.started st = true ->
  sample_line line st = OK st' -> origin_inv st -> origin_inv st'.
Proof.
  unfold sample_line. intros S H I.
  destruct (v0 <- index (map Str (fields line)) 0 ;; int v0).
  - bind_inv H. inversion H; subst; clear H.
    destruct I as (_ & Ht & Hd).
    repeat match goal with
      | H1 : ?e = OK ?u, H2 : ?e = OK ?v |- _ =>
          rewrite H1 in H2; injection H2 as <-
      end.
    split; [simpl; congruence|]. split; [|exact Hd].
    simpl. rewrite map_app, <- Ht. reflexivity.
  - inversion H; subst; exact I.
Qed.

Lemma origin_parse_line line st st' :
  Locals.started st = true ->
  parse_line missing line st = OK st' -> origin_inv st -> origin_inv st'.
Proof.
  unfold parse_line. intros S H I.
  repeat match type of H with
    | (if ?b then _ else _) = OK _ => destruct b
    end;
    try (bind_inv H; inversion H; subst; exact I).
  eapply origin_sample_line; eauto.
Qed.

Lemma origin_loop fl raw : forall st st',
  loop start stop missing fl raw st = OK st' ->
  origin_inv st -> origin_inv st'.
Proof.
  induction raw as [|line rest IH]; simpl; intros st st' H I.
  - inversion H; subst; exact I.
  - apply bind_OK in H. destruct H as (st2 & E & H).
    eapply IH; [exact H|]. unfold step in E.
    apply bind_OK in E. destruct E as (st1 & E1 & E).
    apply origin_check_started in E1; [|exact I].
    destruct (Locals.started st1) eqn:S.
    + eapply origin_parse_line; eauto.
    + inversion E; subst; exact E1.
Qed.

Lemma time_is_shifted_trackertime file data :
  read_edf start stop missing file = OK data -> Forall shifted data.
Proof.
  destruct file as [raw|]; simpl; intros H; [|discriminate].
  apply bind_OK in H. destruct H as (fl & _ & H).
  apply bind_OK in H. destruct H as (st & E & H).
  inversion H; subst.
  apply (origin_loop _ _ _ _ E).
  split; [now split|]. split; [reflexivity | constructor].
Qed.

End Origin.

(** ** Logs without a start marker *)

Lemma loop_idle start stop missing fl raw : forall st,
  Locals.started st = false ->
  Forall (fun line => contains start line = false) raw ->
  loop start stop missing fl raw st = OK st.
Proof.
  induction raw as [|line rest IH]; intros st S H; [reflexivity|].
  inversion H as [|? ? Hl Hr]; subst. simpl.
  unfold step, check_started. rewrite S, Hl. simpl. rewrite S.
  now apply IH.
Qed.

(** X3: a log with at least one line none of which contains the start
    marker gives no trial: [read_edf] returns the empty list, whatever
    the lines hold. *)
Lemma no_start_marker_no_trial start stop missing raw :
  raw <> [] ->
  Forall (fun line => contains start line = false) raw ->
  read_edf start stop missing (Some raw) = OK [].
Proof.
  intros Hne H. unfold read_edf.
  rewrite (index_last_last raw "" Hne). cbn [bind].
  now rewrite loop_idle.
Qed.

Lemma no_start_marker_no_trial_witness :
  read_edf "TRIALSTART" (Some "TRIALEND") zero (Some log_header) = OK [].
Proof.
  apply (no_start_marker_no_trial "TRIALSTART" (Some "TRIALEND") zero
           log_header).
  - discriminate.
  - repeat constructor.
Defined.

(** C6 on the log without any line: no line contains the start marker,
    and [read_edf] raises [IndexError] at [raw[-1]] instead of returning
    the empty list. *)
Theorem C6_empty_log_raises :
  forall start stop missing,
    Forall (fun line => contains start line = false) [] /\
    read_edf start stop missing (Some []) = Raise IndexError.
Proof.
  intros start stop missing. split; [constructor | reflexivity].
Qed.

(** ** Scenario 1 *)

(** C7 as the code has it: [log_scenario_1] gives exactly one trial,
    closed by the last line of the input; its sample sequences are empty
    and its [msg] list holds the message of the start line,
    [[100, "TRIALSTART\n"]]; the message of the last line is not in it. *)
Theorem C7_scenario_1_one_trial :
  forall missing,
    (exists st,
       loop "TRIALSTART" None missing ("MSG" ++ TAB ++ "100 TRIALNR END" ++ LF)
         (firstn 1 log_scenario_1) Locals.init = OK st /\
       Locals.data st = [] /\ Locals.started st = true) /\
    read_edf "TRIALSTART" None missing (Some log_scenario_1) =
    OK [Trial.mk [] [] [] [] []
          (Events.mk [] [] [] [] [] [] [(100, "TRIALSTART" ++ LF)])].
Proof.
  intros missing. split.
  - eexists. split; [vm_compute; reflexivity|]. split; reflexivity.
  - vm_compute. reflexivity.
Qed.

(** C7 as the specification has it fails: the trial returned for
    [log_scenario_1] does not have [[100, "TRIALNR END\n"]] as its [msg]
    list. *)
Lemma C7_scenario_1_counterexample :
  ~ (exists T,
       read_edf "TRIALSTART" None zero (Some log_scenario_1) = OK [T] /\
       Events.msg (Trial.events T) = [(100, "TRIALNR END" ++ LF)] /\
       Trial.x T = [] /\ Trial.y T = [] /\ Trial.size T = [] /\
       Trial.time T = [] /\ Trial.trackertime T = []).
Proof.
  intros (T & E & H & _). vm_compute in E. inversion E; subst.
  discriminate H.
Qed.

(** * Further properties of [read_edf] *)

(** ** Lines outside a trial *)

Lemma index_last_app {A : Type} (pre raw : list A) :
  raw <> [] -> index_last (pre ++ raw)%list = index_last raw.
Proof.
  intros Hne. induction pre as [|a pre IH]; [reflexivity|].
  simpl. destruct (pre ++ raw)%list eqn:E; [|exact IH].
  destruct pre; [contradiction | discriminate].
Qed.

(** X1: the lines that come before the first line containing the start
    marker have no effect: with or without them [read_edf] gives the same
    result, be it a list of trials or an exception. *)
Theorem X1_lines_before_first_start_ignored :
  forall start stop missing pre raw,
    raw <> [] ->
    Forall (fun line => contains start line = false) pre ->
    read_edf start stop missing (Some (pre ++ raw)%list) =
    read_edf start stop missing (Some raw).
Proof.
  intros start stop missing pre raw Hne Hpre. unfold read_edf.
  rewrite index_last_app by assumption.
  destruct (index_last raw) as [fl|e]; [|reflexivity]. cbn [bind].
  rewrite loop_app. now rewrite loop_idle.
Qed.

Lemma X1_lines_before_first_start_ignored_witness :
  read_edf "TRIALSTART" None zero
    (Some (log_header ++ log_two_starts)%list) =
  read_edf "TRIALSTART" None zero (Some log_two_starts).
Proof.
  apply (X1_lines_before_first_start_ignored "TRIALSTART" None zero
           log_header log_two_starts).
  - discriminate.
  - repeat constructor.
Defined.

(** ** What the parse of a line leaves alone *)

Lemma sample_line_keeps line st st' :
  sample_line line st = OK st' ->
  Locals.data st' = Locals.data st /\
  Locals.starttime st' = Locals.starttime st /\
  Locals.started st' = Locals.started st /\
  Locals.events st' = Locals.events st.
Proof.
  unfold sample_line. intros H.
  destruct (v0 <- index (map Str (fields line)) 0 ;; int v0).
  - bind_inv H. inversion H; subst. repeat split.
  - inversion H; subst. repeat split.
Qed.

Lemma parse_line_keeps missing line st st' :
  parse_line missing line st = OK st' ->
  Locals.data st' = Locals.data st /\
  Locals.starttime st' = Locals.starttime st /\
  Locals.started st' = Locals.started st.
Proof.
  unfold parse_line. intros H.
  repeat match type of H with
    | (if ?b then _ else _) = OK _ => destruct b
    end;
    first [ apply sample_line_keeps in H; tauto
          | bind_inv H; inversion H; subst; repeat split; reflexivity ].
Qed.

(** X2: in its second half the loop body touches either the events or the
    sample buffers, never both: a line with a recognized tag leaves [x],
    [y], [size], [time] and [trackertime] as they are, a line without one
    leaves [events] as it is, and neither changes [data], [starttime] or
    [started]. *)
Theorem X2_parse_line_frame :
  forall missing line st st',
    parse_line missing line st = OK st' ->
    (Locals.data st' = Locals.data st /\
     Locals.starttime st' = Locals.starttime st /\
     Locals.started st' = Locals.started st) /\
    (recognized line = true ->
     Locals.x st' = Locals.x st /\ Locals.y st' = Locals.y st /\
     Locals.size st' = Locals.size st /\ Locals.time st' = Locals.time st /\
     Locals.trackertime st' = Locals.trackertime st) /\
    (recognized line = false -> Locals.events st' = Locals.events st).
Proof.
  intros missing line st st' H.
  split; [eapply parse_line_keeps; eauto|]. split.
  - intros Hr. unfold recognized in Hr. unfold parse_line in H.
    repeat match type of H with
      | (if ?b then _ else _) = OK _ => destruct b
      end;
      first [ discriminate Hr
            | bind_inv H; inversion H; subst; repeat split; reflexivity ].
  - intros Hr. rewrite parse_line_unrecognized in H by assumption.
    apply sample_line_keeps in H. tauto.
Qed.

Lemma X2_parse_line_frame_witness :
  Locals.x (Locals.set_events (Events.mk [2345] [] [] [] [] [] [])
              (Locals.fresh_trial 900)) =
  Locals.x (Locals.fresh_trial 900).
Proof.
  apply (X2_parse_line_frame zero "SFIX L  12345" (Locals.fresh_trial 900)
           (Locals.set_events (Events.mk [2345] [] [] [] [] [] [])
              (Locals.fresh_trial 900))).
  - reflexivity.
  - reflexivity.
Defined.

(** ** How many trials are returned *)

Lemma step_data_stop start s missing fl line st st' :
  step start (Some s) missing fl st line = OK st' ->
  Locals.data st' =
  (if Locals.started st && contains s line
   then Locals.data st ++ [Locals.trial st] else Locals.data st)%list.
Proof.
  unfold step, check_started. intros H.
  destruct (Locals.started st) eqn:S; simpl.
  - destruct (contains s line); simpl in H.
    + inversion H; subst; reflexivity.
    + rewrite S in H. now apply parse_line_keeps in H.
  - destruct (contains start line); simpl in H.
    + destruct (start_timestamp line); simpl in H; [|discriminate].
      now apply parse_line_keeps in H.
    + rewrite S in H. inversion H; subst; reflexivity.
Qed.

Lemma loop_stop_bound start s missing fl raw : forall st st',
  loop start (Some s) missing fl raw st = OK st' ->
  (List.length (Locals.data st') <=
   List.length (Locals.data st) + List.length (filter (contains s) raw))%nat.
Proof.
  induction raw as [|line rest IH]; simpl; intros st st' H.
  - inversion H; subst. lia.
  - apply bind_OK in H. destruct H as (st1 & E & H).
    apply IH in H. apply step_data_stop in E. rewrite E in H.
    destruct (Locals.started st); simpl in H;
      destruct (contains s line); simpl in *;
      rewrite ?length_app in H; simpl in H; lia.
Qed.

(** X4: with a stop marker configured, a trial is returned only when a
    line containing the stop marker closes it: there are at most as many
    trials as such lines, and a log without any returns no trial, however
    many trials it opens. *)
Theorem X4_stop_marker_bounds_trials :
  forall start s missing raw data,
    read_edf start (Some s) missing (Some raw) = OK data ->
    (List.length data <= List.length (filter (contains s) raw))%nat /\
    (Forall (fun line => contains s line = false) raw -> data = []).
Proof.
  intros start s missing raw data H. unfold read_edf in H.
  apply bind_OK in H. destruct H as (fl & _ & H).
  apply bind_OK in H. destruct H as (st & E & H).
  inversion H; subst. apply loop_stop_bound in E. simpl in E.
  split; [exact E|]. intros Hno.
  assert (F : filter (contains s) raw = []).
  { clear E. induction Hno as [|l r Hl _ IH]; simpl; [reflexivity|].
    now rewrite Hl. }
  rewrite F in E. simpl in E.
  destruct (Locals.data st); [reflexivity | simpl in E; lia].
Qed.

Lemma X4_stop_marker_bounds_trials_witness :
  exists data,
    read_edf "TRIALSTART" (Some "TRIALEND") zero (Some log_with_stop) = OK data /\
    (List.length data <= 2)%nat.
Proof.
  eexists. split; [vm_compute; reflexivity|].
  apply (X4_stop_marker_bounds_trials "TRIALSTART" "TRIALEND" zero
           log_with_stop).
  vm_compute; reflexivity.
Defined.

Lemma step_implicit start missing fl line st st' :
  Locals.started st = true ->
  step start None missing fl st line = OK st' ->
  Locals.started st' = true /\
  Locals.starttime st' = Locals.starttime st /\
  Locals.data st' =
  (if boundary start fl line
   then Locals.data st ++ [Locals.trial st] else Locals.data st)%list.
Proof.
  unfold step, check_started, boundary. intros S H. rewrite S in H.
  destruct (contains start line || (line =? fl)%string); simpl in H.
  - apply parse_line_keeps in H. simpl in H. tauto.
  - rewrite S in H. apply parse_line_keeps in H.
    destruct H as (-> & -> & ->). auto.
Qed.

Lemma loop_implicit_count start missing fl raw : forall st st',
  Locals.started st = true ->
  loop start None missing fl raw st = OK st' ->
  List.length (Locals.data st') =
  (List.length (Locals.data st) +
   List.length (filter (boundary start fl) raw))%nat.
Proof.
  induction raw as [|line rest IH]; simpl; intros st st' S H.
  - inversion H; subst. lia.
  - apply bind_OK in H. destruct H as (st1 & E & H).
    apply step_implicit in E; [|exact S]. destruct E as (S1 & _ & D).
    apply IH in H; [|exact S1]. rewrite H, D.
    destruct (boundary start fl line); simpl;
      rewrite ?length_app; simpl; lia.
Qed.

(** The lines before the first start line can be dropped. *)
Lemma read_edf_skip_header start stop missing pre raw :
  raw <> [] ->
  Forall (fun line => contains start line = false) pre ->
  read_edf start stop missing (Some (pre ++ raw)%list) =
  read_edf start stop missing (Some raw).
Proof.
  intros Hne Hpre. unfold read_edf.
  rewrite index_last_app by assumption.
  destruct (index_last raw) as [fl|e]; [|reflexivity]. cbn [bind].
  rewrite loop_app. now rewrite loop_idle.
Qed.

Lemma origin_step start stop missing fl line st st' :
  step start stop missing fl st line = OK st' ->
  origin_inv st -> origin_inv st'.
Proof.
  unfold step. intros E I.
  apply bind_OK in E. destruct E as (st1 & E1 & E).
  apply origin_check_started in E1; [|exact I].
  destruct (Locals.started st1) eqn:S.
  - eapply origin_parse_line; eauto.
  - inversion E; subst; exact E1.
Qed.

Lemma origin_init : origin_inv Locals.init.
Proof. split; [now split|]. split; [reflexivity | constructor]. Qed.

(** The state in which the line after the first start line is met. *)
Lemma first_start_line start stop missing fl l0 rest st' :
  contains start l0 = true ->
  loop start stop missing fl (l0 :: rest) Locals.init = OK st' ->
  exists t0 st0,
    start_timestamp l0 = OK t0 /\
    Locals.data st0 = [] /\ Locals.started st0 = true /\
    Locals.starttime st0 = t0 /\ origin_inv st0 /\
    loop start stop missing fl rest st0 = OK st'.
Proof.
  intros Hs H. simpl in H. apply bind_OK in H. destruct H as (st0 & E & H).
  assert (I := origin_step _ _ _ _ _ _ _ E origin_init).
  unfold step, check_started in E. simpl in E. rewrite Hs in E.
  destruct (start_timestamp l0) as [t0|e] eqn:Et; [|discriminate].
  simpl in E. exists t0, st0. split; [reflexivity|].
  apply parse_line_keeps in E. simpl in E.
  destruct E as (Kd & Kt & Ks). auto.
Qed.

(** X5: without a stop marker, once the first line containing the start
    marker has opened a trial, every later line that contains the start
    marker or has the text of the last line closes one trial: the number
    of trials returned is the number of those lines.  The trial that the
    last of them opens is not returned. *)
Theorem X5_implicit_stop_trial_count :
  forall start missing pre l0 rest data,
    Forall (fun line => contains start line = false) pre ->
    contains start l0 = true ->
    read_edf start None missing (Some (pre ++ l0 :: rest)%list) = OK data ->
    List.length data =
    List.length (filter (boundary start (last (l0 :: rest) "")) rest).
Proof.
  intros start missing pre l0 rest data Hpre Hs H.
  rewrite read_edf_skip_header in H by (assumption || discriminate).
  unfold read_edf in H.
  rewrite (index_last_last (l0 :: rest) "") in H by discriminate.
  cbn [bind] in H.
  apply bind_OK in H. destruct H as (st & E & H). inversion H; subst.
  apply first_start_line in E; [|exact Hs].
  destruct E as (t0 & st0 & _ & D & S & _ & _ & E).
  apply loop_implicit_count in E; [|exact S].
  rewrite E, D. reflexivity.
Qed.

Lemma X5_implicit_stop_trial_count_witness :
  exists data,
    read_edf "TRIALSTART" None zero (Some (log_header ++ log_two_starts)%list)
    = OK data /\ List.length data = 2%nat.
Proof.
  eexists. split; [vm_compute; reflexivity|].
  apply (X5_implicit_stop_trial_count "TRIALSTART" zero log_header
           ("MSG" ++ TAB ++ "100 TRIALSTART" ++ LF) (tl log_two_starts)).
  - repeat constructor.
  - reflexivity.
  - vm_compute; reflexivity.
Defined.

(** ** The line that opens a trial *)

(** X6: the first line that contains the start marker must carry an
    integer between its first tab and its first space: when [int] rejects
    that text, [read_edf] raises the exception of [int] and returns
    nothing, whatever follows. *)
Theorem X6_start_line_without_timestamp_raises :
  forall start stop missing pre line post e,
    Forall (fun l => contains start l = false) pre ->
    contains start line = true ->
    start_timestamp line = Raise e ->
    read_edf start stop missing (Some (pre ++ line :: post)%list) = Raise e.
Proof.
  intros start stop missing pre line post e Hpre Hs He.
  rewrite read_edf_skip_header by (assumption || discriminate).
  unfold read_edf.
  rewrite (index_last_last (line :: post) "") by discriminate.
  cbn [bind loop]. unfold step, check_started. simpl.
  now rewrite Hs, He.
Qed.

Lemma X6_start_line_without_timestamp_raises_witness :
  read_edf "TRIALSTART" None zero
    (Some (log_header ++ [("TRIALSTART 100" ++ LF)%string; ("END" ++ LF)%string])%list)
  = Raise ValueError.
Proof.
  apply (X6_start_line_without_timestamp_raises "TRIALSTART" None zero
           log_header ("TRIALSTART 100" ++ LF) [("END" ++ LF)%string] ValueError).
  - repeat constructor.
  - reflexivity.
  - reflexivity.
Defined.

(** ** The last line *)

(** X7: without a stop marker, when a trial is open before the last
    line, that line closes the trial and is parsed into buffers that are
    never returned: the result is the trials closed before it and the
    open trial as it stood, and it depends on the last line only through
    whether the line parses. *)
Theorem X7_last_line_never_returned :
  forall start missing pre l st,
    loop start None missing l pre Locals.init = OK st ->
    Locals.started st = true ->
    read_edf start None missing (Some (pre ++ [l])%list) =
    (_ <- parse_line missing l (end_trial true st) ;;
     OK (Locals.data st ++ [Locals.trial st])%list).
Proof.
  intros start missing pre l st Hp S. unfold read_edf.
  rewrite index_last_app by discriminate. cbn [index_last bind].
  rewrite loop_app, Hp. cbn [bind loop].
  unfold step, check_started. rewrite S.
  rewrite String.eqb_refl, orb_true_r. cbn [bind].
  change (Locals.started (end_trial true st)) with true. cbv iota.
  destruct (parse_line missing l (end_trial true st)) as [st2|e] eqn:E;
    [|reflexivity].
  cbn [bind]. apply parse_line_keeps in E. destruct E as (-> & _). reflexivity.
Qed.

Lemma X7_last_line_never_returned_witness :
  read_edf "TRIALSTART" None zero (Some log_scenario_1) =
  OK [Trial.mk [] [] [] [] []
        (Events.mk [] [] [] [] [] [] [(100, "TRIALSTART" ++ LF)])].
Proof.
  apply (X7_last_line_never_returned "TRIALSTART" zero
           (firstn 1 log_scenario_1) ("MSG" ++ TAB ++ "100 TRIALNR END" ++ LF)
           (Locals.mk [] [] [] [] [] []
              (Events.mk [] [] [] [] [] [] [(100, "TRIALSTART" ++ LF)])
              100 true)).
  - reflexivity.
  - reflexivity.
Defined.

(** ** The time origin of every trial *)

Lemma origin_trial st : origin_inv st ->
  has_origin (Locals.starttime st) (Locals.trial st).
Proof. intros (_ & H & _). exact H. Qed.

Lemma loop_origins start s missing fl raw : forall st st',
  loop start (Some s) missing fl raw st = OK st' ->
  origin_inv st ->
  exists new,
    Locals.data st' = (Locals.data st ++ new)%list /\
    Forall2 (fun T t0 => has_origin t0 T) new
      (origins start s
         (if Locals.started st then Some (Locals.starttime st) else None)
         raw).
Proof.
  induction raw as [|line rest IH]; simpl; intros st st' H I.
  - injection H as <-. exists []. rewrite app_nil_r.
    split; [reflexivity|]. destruct (Locals.started st); constructor.
  - apply bind_OK in H. destruct H as (st1 & E & H).
    assert (I1 := origin_step _ _ _ _ _ _ _ E I).
    destruct (IH _ _ H I1) as (new & D & F). clear IH H.
    unfold step, check_started in E.
    destruct (Locals.started st) eqn:S.
    + destruct (contains s line); simpl in E.
      * injection E as <-. simpl in D, F.
        exists (Locals.trial st :: new). rewrite D, <- app_assoc.
        split; [reflexivity|]. constructor; [|exact F].
        now apply origin_trial.
      * rewrite S in E. apply parse_line_keeps in E.
        destruct E as (Ed & Et & Es). rewrite Es, S, Et in F.
        exists new. now rewrite D, Ed.
    + destruct (contains start line); simpl in E.
      * destruct (start_timestamp line) as [t|e]; simpl in E; [|discriminate].
        apply parse_line_keeps in E. simpl in E.
        destruct E as (Ed & Et & Es). rewrite Es, Et in F.
        exists new. now rewrite D, Ed.
      * rewrite S in E. injection E as <-. rewrite S in F.
        exists new. now rewrite D.
Qed.

(** X8: with a stop marker configured, and as long as the relative and
    the tracker times of the returned trials fit in 64 bits, so that the
    arrays hold them as they are, the relative times of every returned
    trial are its tracker times less the time stamp of the line that
    opened it: the trials and the origins listed by [origins] correspond
    one to one. *)
Theorem X8_explicit_stop_time_origin :
  forall start s missing raw data,
    read_edf start (Some s) missing (Some raw) = OK data ->
    Forall exact_times data ->
    Forall2 (fun T t0 => has_origin t0 T) data (origins start s None raw).
Proof.
  intros start s missing raw data H _. unfold read_edf in H.
  apply bind_OK in H. destruct H as (fl & _ & H).
  apply bind_OK in H. destruct H as (st & E & H). inversion H; subst.
  destruct (loop_origins _ _ _ _ _ _ _ E origin_init) as (new & D & F).
  simpl in D, F. now rewrite D.
Qed.

Lemma X8_explicit_stop_time_origin_witness :
  exists T1 T2,
    read_edf "TRIALSTART" (Some "TRIALEND") zero (Some log_with_stop) =
    OK [T1; T2] /\
    has_origin 100 T1 /\ has_origin 200 T2 /\
    Trial.trackertime T1 = [150] /\ Trial.trackertime T2 = [250].
Proof.
  assert (H := X8_explicit_stop_time_origin "TRIALSTART" "TRIALEND" zero
                 log_with_stop).
  destruct (read_edf "TRIALSTART" (Some "TRIALEND") zero (Some log_with_stop))
    as [data|e] eqn:E; vm_compute in E; [|discriminate].
  injection E as <-.
  assert (Hx : Forall exact_times
                 [Trial.mk [of_decimal false 1 0] [of_decimal false 2 0]
                    [of_decimal false 3 0] [50] [150]
                    (Events.mk [] [] [] [] [] [] [(100, "TRIALSTART" ++ LF)]);
                  Trial.mk [zero] [zero] [zero] [50] [250]
                    (Events.mk [] [] [] [] [] [] [(200, "TRIALSTART" ++ LF)])]).
  { unfold exact_times, int64.
    repeat first [apply Forall_cons | apply Forall_nil | split]; lia. }
  specialize (H _ eq_refl Hx). vm_compute in H.
  inversion H as [|T1 t1 r1 r1' H1 F1]; subst.
  inversion F1 as [|T2 t2 r2 r2' H2 F2]; subst.
  eexists. eexists. split; [reflexivity|].
  split; [exact H1|]. split; [exact H2|]. split; reflexivity.
Defined.

Lemma loop_implicit_origin start missing fl raw : forall st st',
  Locals.started st = true ->
  origin_inv st ->
  Forall (has_origin (Locals.starttime st)) (Locals.data st) ->
  loop start None missing fl raw st = OK st' ->
  Forall (has_origin (Locals.starttime st)) (Locals.data st').
Proof.
  induction raw as [|line rest IH]; simpl; intros st st' S I F H.
  - injection H as <-. exact F.
  - apply bind_OK in H. destruct H as (st1 & E & H).
    assert (I1 := origin_step _ _ _ _ _ _ _ E I).
    apply step_implicit in E; [|exact S]. destruct E as (S1 & T1 & D).
    rewrite <- T1. apply (IH st1 st' S1 I1); [|exact H].
    rewrite T1, D. destruct (boundary start fl line); [|exact F].
    apply Forall_app. split; [exact F|].
    constructor; [now apply origin_trial | constructor].
Qed.

(** X9: without a stop marker, [starttime] is assigned once, by the first
    line containing the start marker: as long as the relative and the
    tracker times of the returned trials fit in 64 bits, so that the
    arrays hold them as they are, the relative times of every returned
    trial, the later ones too, are its tracker times less the time stamp
    of that first line. *)
Theorem X9_implicit_stop_single_origin :
  forall start missing pre l0 rest t0 data,
    Forall (fun line => contains start line = false) pre ->
    contains start l0 = true ->
    start_timestamp l0 = OK t0 ->
    read_edf start None missing (Some (pre ++ l0 :: rest)%list) = OK data ->
    Forall exact_times data ->
    Forall (has_origin t0) data.
Proof.
  intros start missing pre l0 rest t0 data Hpre Hs Ht H _.
  rewrite read_edf_skip_header in H by (assumption || discriminate).
  unfold read_edf in H.
  rewrite (index_last_last (l0 :: rest) "") in H by discriminate.
  cbn [bind] in H.
  apply bind_OK in H. destruct H as (st & E & H). inversion H; subst.
  apply first_start_line in E; [|exact Hs].
  destruct E as (t & st0 & Et & D & S & T & I & E).
  rewrite Ht in Et. inversion Et; subst t0.
  rewrite <- T.
  apply (loop_implicit_origin _ _ _ _ _ _ S I) in E; [exact E|].
  rewrite D. constructor.
Qed.

Lemma X9_implicit_stop_single_origin_witness :
  exists T1 T2,
    read_edf "TRIALSTART" None zero (Some (log_header ++ log_two_starts)%list)
    = OK [T1; T2] /\
    has_origin 100 T1 /\ has_origin 100 T2 /\ Trial.trackertime T2 = [250].
Proof.
  assert (H := X9_implicit_stop_single_origin "TRIALSTART" zero log_header
                 ("MSG" ++ TAB ++ "100 TRIALSTART" ++ LF) (tl log_two_starts) 100).
  destruct (read_edf "TRIALSTART" None zero
              (Some (log_header ++ log_two_starts)%list))
    as [data|e] eqn:E; vm_compute in E; [|discriminate].
  injection E as <-.
  assert (F : Forall (has_origin 100)
                [Trial.mk [] [] [] [] []
                   (Events.mk [] [] [] [] [] [] [(100, "TRIALSTART" ++ LF)]);
                 Trial.mk [of_decimal false 1 0] [of_decimal false 2 0]
                   [of_decimal false 3 0] [150] [250]
                   (Events.mk [] [] [] [] [] [] [(200, "TRIALSTART" ++ LF)])]).
  { apply H.
    - repeat constructor.
    - reflexivity.
    - reflexivity.
    - vm_compute. reflexivity.
    - unfold exact_times, int64.
      repeat first [apply Forall_cons | apply Forall_nil | split]; lia. }
  inversion F as [|T1 r1 H1 F1]; subst.
  inversion F1 as [|T2 r2 H2 F2]; subst.
  eexists. eexists. split; [reflexivity|].
  split; [exact H1|]. split; [exact H2|]. reflexivity.
Defined.

(** ** Slices of a line *)

Lemma substring_0_min m : forall s,
  substring 0 (Nat.min m (String.length s)) s = substring 0 m s.
Proof.
  induction m as [|m IH]; intros [|c s]; simpl; try reflexivity.
  now rewrite IH.
Qed.

Lemma substring_0_twice a : forall b s,
  (a <= b)%nat -> substring 0 a (substring 0 b s) = substring 0 a s.
Proof.
  induction a as [|a IH]; intros b s L.
  - now destruct (substring 0 b s), s.
  - destruct b as [|b]; [lia|]. destruct s as [|c s]; [reflexivity|].
    simpl. rewrite IH by lia. reflexivity.
Qed.

Lemma substring_0_all s : substring 0 (String.length s) s = s.
Proof. induction s as [|c s IH]; simpl; [reflexivity | now rewrite IH]. Qed.

Lemma substring_skip (a : string) : forall m r,
  substring (String.length a) m (a ++ r) = substring 0 m r.
Proof. induction a as [|c a IH]; intros m r; simpl; [reflexivity | apply IH]. Qed.

Lemma substring_0_app (b : string) : forall c,
  substring 0 (String.length b) (b ++ c) = b.
Proof. induction b as [|x b IH]; intros c; simpl; [now destruct c | now rewrite IH]. Qed.

Lemma length_append (a b : string) :
  String.length (a ++ b) = (String.length a + String.length b)%nat.
Proof. induction a as [|c a IH]; simpl; [reflexivity | now rewrite IH]. Qed.

(** [s[0:k]] is the text of the first [k] characters. *)
Lemma slice_0 s k : 0 <= k -> slice s 0 k = substring 0 (Z.to_nat k) s.
Proof.
  intros Hk. unfold slice, clip, len.
  replace (0 <? 0) with false by reflexivity.
  replace (k <? 0) with false by (symmetry; apply Z.ltb_ge; exact Hk).
  rewrite <- (substring_0_min (Z.to_nat k) s).
  replace (Z.to_nat (Z.min 0 (Z.of_nat (String.length s)))) with 0%nat by lia.
  f_equal. lia.
Qed.

(** [s[0:]] is [s]. *)
Lemma slice_from_0 s : slice_from s 0 = s.
Proof.
  unfold slice_from. rewrite slice_0 by (unfold len; lia).
  unfold len. rewrite Nat2Z.id. apply substring_0_all.
Qed.

(** [(a + b + c)[len(a):len(a)+len(b)]] is [b]. *)
Lemma slice_app_mid a b c :
  slice (a ++ b ++ c) (len a) (len a + len b) = b.
Proof.
  unfold slice, clip, len. rewrite !length_append.
  replace (Z.of_nat (String.length a) <? 0) with false by (symmetry; apply Z.ltb_ge; lia).
  replace (Z.of_nat (String.length a) + Z.of_nat (String.length b) <? 0)
    with false by (symmetry; apply Z.ltb_ge; lia).
  replace (Z.to_nat (Z.min (Z.of_nat (String.length a)) _))
    with (String.length a) by lia.
  replace (Z.to_nat (_ - _)) with (String.length b) by lia.
  rewrite substring_skip. apply substring_0_app.
Qed.

(** [(a + b)[len(a):]] is [b]. *)
Lemma slice_from_app a b : slice_from (a ++ b) (len a) = b.
Proof.
  unfold slice_from, slice, clip, len. rewrite !length_append.
  replace (Z.of_nat (String.length a) <? 0) with false by (symmetry; apply Z.ltb_ge; lia).
  replace (Z.of_nat (String.length a + String.length b) <? 0)
    with false by (symmetry; apply Z.ltb_ge; lia).
  replace (Z.to_nat (Z.min (Z.of_nat (String.length a)) _))
    with (String.length a) by lia.
  replace (Z.to_nat (_ - _)) with (String.length b) by lia.
  rewrite substring_skip. apply substring_0_all.
Qed.

(** A tag of [b] characters fixes the first [a <= b] characters. *)
Lemma tag_prefix (a b : Z) line tag :
  0 <= a <= b -> slice line 0 b = tag -> slice line 0 a = slice tag 0 a.
Proof.
  intros L H. rewrite slice_0 in H by lia. rewrite !slice_0 by lia.
  rewrite <- H. symmetry. apply substring_0_twice. lia.
Qed.

(** The tests of [parse_line] that come before a tag fail on a line that
    carries the tag. *)
Ltac tag_tests H :=
  unfold parse_line;
  match type of H with
  | slice ?l 0 ?b = ?tag =>
      repeat match goal with
        | |- context [(slice l 0 ?a =? ?t)%string] =>
            first
              [ rewrite H, String.eqb_refl
              | let E := fresh "E" in
                assert (E : (slice l 0 a =? t)%string = false)
                  by (apply String.eqb_neq;
                      first
                        [ rewrite H; discriminate
                        | rewrite (tag_prefix a b l tag ltac:(lia) H);
                          vm_compute; discriminate
                        | let K := fresh "K" in
                          intros K;
                          apply (tag_prefix b a l t ltac:(lia)) in K;
                          rewrite H in K; vm_compute in K; discriminate K ]);
                rewrite E; clear E ]
        end
  end.

Lemma parse_line_SFIX missing line st :
  slice line 0 6 = "SFIX L" ->
  parse_line missing line st =
  (t <- int_of_string (slice_from line 9) ;;
   OK (Locals.set_events (Events.append_Sfix t (Locals.events st)) st)).
Proof. intros H. tag_tests H. reflexivity. Qed.

Lemma parse_line_SSACC missing line st :
  slice line 0 7 = "SSACC L" ->
  parse_line missing line st =
  (t <- int_of_string (slice_from line 9) ;;
   OK (Locals.set_events (Events.append_Ssac t (Locals.events st)) st)).
Proof. intros H. tag_tests H. reflexivity. Qed.

Lemma parse_line_SBLINK missing line st :
  slice line 0 6 = "SBLINK" ->
  parse_line missing line st =
  (t <- int_of_string (slice_from line 9) ;;
   OK (Locals.set_events (Events.append_Sblk t (Locals.events st)) st)).
Proof. intros H. tag_tests H. reflexivity. Qed.

(** ** Sample lines *)

Lemma sample_line_fields line st f0 f1 f2 f3 more t fs :
  fields line = f0 :: f1 :: f2 :: f3 :: more ->
  int_of_string f0 = OK t ->
  float_of_string f3 = OK fs ->
  feqb fs zero = false ->
  sample_line line st =
  (fx <- float_of_string f1 ;;
   fy <- float_of_string f2 ;;
   OK (Locals.append_sample fx fy fs (t - Locals.starttime st) t st)).
Proof.
  intros Hf H0 H3 Hz. unfold sample_line. rewrite Hf.
  cbn [map index nth_error bind int float]. rewrite H0. cbn [bind].
  rewrite H3. cbn [bind]. rewrite Hz.
  cbn [map index nth_error bind int float].
  destruct (float_of_string f1) as [fx|e]; [|reflexivity]. cbn [bind].
  destruct (float_of_string f2) as [fy|e]; [|reflexivity]. cbn [bind].
  rewrite H3, H0. reflexivity.
Qed.

(** X10: inside an open trial, a line without a recognized tag whose
    first field is an integer [t] and whose fourth field is a pupil size
    other than zero appends the floats read from its second, third and
    fourth fields to [x], [y] and [size], [t - starttime] to [time] and
    [t] to [trackertime]; fields after the fourth are ignored. *)
Theorem X10_sample_line_appends :
  forall start stop missing fl line st st1 f0 f1 f2 f3 more t fx fy fs,
    open_at start stop fl line st st1 ->
    recognized line = false ->
    fields line = f0 :: f1 :: f2 :: f3 :: more ->
    int_of_string f0 = OK t ->
    float_of_string f1 = OK fx ->
    float_of_string f2 = OK fy ->
    float_of_string f3 = OK fs ->
    feqb fs zero = false ->
    step start stop missing fl st line =
    OK (Locals.append_sample fx fy fs (t - Locals.starttime st1) t st1).
Proof.
  intros start stop missing fl line st st1 f0 f1 f2 f3 more t fx fy fs
         Ho Hr Hf H0 H1 H2 H3 Hz.
  rewrite (step_open _ _ _ _ _ _ _ Ho).
  rewrite parse_line_unrecognized by assumption.
  rewrite (sample_line_fields _ _ _ _ _ _ _ _ _ Hf H0 H3 Hz), H1, H2.
  reflexivity.
Qed.

Lemma X10_sample_line_appends_witness :
  step "TRIALSTART" None zero ("END" ++ LF) (Locals.fresh_trial 900)
    ("1000" ++ TAB ++ "  50.5" ++ TAB ++ "  60.0" ++ TAB ++ " 4933.0" ++ TAB ++ "..." ++ LF) =
  OK (Locals.append_sample (of_decimal false 505 (-1)) (of_decimal false 60 0)
        (of_decimal false 4933 0) 100 1000 (Locals.fresh_trial 900)).
Proof.
  apply (X10_sample_line_appends "TRIALSTART" None zero ("END" ++ LF)
           ("1000" ++ TAB ++ "  50.5" ++ TAB ++ "  60.0" ++ TAB ++ " 4933.0" ++ TAB ++ "..." ++ LF)
           (Locals.fresh_trial 900) (Locals.fresh_trial 900)
           "1000" "  50.5" "  60.0" " 4933.0" [("..." ++ LF)%string] 1000).
  - split; reflexivity.
  - reflexivity.
  - reflexivity.
  - reflexivity.
  - vm_compute; reflexivity.
  - vm_compute; reflexivity.
  - vm_compute; reflexivity.
  - reflexivity.
Defined.

(** An exception raised by one step is the result of [read_edf]. *)
Lemma read_edf_step_raises start stop missing pre line post st e :
  loop start stop missing (last (pre ++ line :: post) "") pre Locals.init
  = OK st ->
  step start stop missing (last (pre ++ line :: post) "") st line = Raise e ->
  read_edf start stop missing (Some (pre ++ line :: post)%list) = Raise e.
Proof.
  intros Hp E. unfold read_edf.
  rewrite (index_last_last (pre ++ line :: post) "") by now destruct pre.
  cbn [bind]. rewrite loop_app, Hp. cbn [bind loop]. now rewrite E.
Qed.

(** X11: only the first field of a sample line is guarded.  Inside an
    open trial, when the pupil size is not zero and [float] rejects the
    second or the third field, the exception is not caught: the line is
    not skipped and [read_edf] returns nothing. *)
Theorem X11_sample_line_bad_coordinate_raises :
  forall start stop missing pre line post st st1 f0 f1 f2 f3 more t fs e,
    let raw := (pre ++ line :: post)%list in
    let fl := last raw "" in
    loop start stop missing fl pre Locals.init = OK st ->
    open_at start stop fl line st st1 ->
    recognized line = false ->
    fields line = f0 :: f1 :: f2 :: f3 :: more ->
    int_of_string f0 = OK t ->
    float_of_string f3 = OK fs ->
    feqb fs zero = false ->
    float_of_string f1 = Raise e \/
    (exists fx, float_of_string f1 = OK fx) /\ float_of_string f2 = Raise e ->
    read_edf start stop missing (Some raw) = Raise e.
Proof.
  intros start stop missing pre line post st st1 f0 f1 f2 f3 more t fs e
         raw fl Hp Ho Hr Hf H0 H3 Hz Hbad.
  apply (read_edf_step_raises _ _ _ _ _ _ _ _ Hp). fold raw. fold fl.
  rewrite (step_open _ _ _ _ _ _ _ Ho).
  rewrite parse_line_unrecognized by assumption.
  rewrite (sample_line_fields _ _ _ _ _ _ _ _ _ Hf H0 H3 Hz).
  destruct Hbad as [H1|[[fx H1] H2]]; rewrite H1; cbn [bind];
    [reflexivity | now rewrite H2].
Qed.

Lemma X11_sample_line_bad_coordinate_raises_witness :
  read_edf "TRIALSTART" None zero
    (Some ["MSG" ++ TAB ++ "100 TRIALSTART" ++ LF;
           "1000" ++ TAB ++ "   ." ++ TAB ++ "   ." ++ TAB ++ " 4933.0" ++ TAB ++ "..." ++ LF;
           "END" ++ LF]) = Raise ValueError.
Proof.
  apply (X11_sample_line_bad_coordinate_raises "TRIALSTART" None zero
           ["MSG" ++ TAB ++ "100 TRIALSTART" ++ LF]
           ("1000" ++ TAB ++ "   ." ++ TAB ++ "   ." ++ TAB ++ " 4933.0" ++ TAB ++ "..." ++ LF)
           ["END" ++ LF]
           (Locals.mk [] [] [] [] [] []
              (Events.append_msg (100, "TRIALSTART" ++ LF) Events.empty)
              100 true)
           (Locals.mk [] [] [] [] [] []
              (Events.append_msg (100, "TRIALSTART" ++ LF) Events.empty)
              100 true)
           "1000" "   ." "   ." " 4933.0" [("..." ++ LF)%string] 1000
           (of_decimal false 4933 0)).
  - reflexivity.
  - split; reflexivity.
  - reflexivity.
  - reflexivity.
  - reflexivity.
  - vm_compute; reflexivity.
  - reflexivity.
  - left. reflexivity.
Defined.

(** ** Event lines *)

(** X12: inside an open trial, a line whose first characters are
    [SFIX L], [SSACC L] or [SBLINK] adds the integer read from the text
    after its first nine characters to [Sfix], [Ssac] or [Sblk]
    respectively, and changes nothing else. *)
Theorem X12_start_event_lines :
  forall start stop missing fl line st st1 t,
    open_at start stop fl line st st1 ->
    int_of_string (slice_from line 9) = OK t ->
    (slice line 0 6 = "SFIX L" ->
     step start stop missing fl st line =
     OK (Locals.set_events (Events.append_Sfix t (Locals.events st1)) st1)) /\
    (slice line 0 7 = "SSACC L" ->
     step start stop missing fl st line =
     OK (Locals.set_events (Events.append_Ssac t (Locals.events st1)) st1)) /\
    (slice line 0 6 = "SBLINK" ->
     step start stop missing fl st line =
     OK (Locals.set_events (Events.append_Sblk t (Locals.events st1)) st1)).
Proof.
  intros start stop missing fl line st st1 t Ho Ht.
  rewrite (step_open _ _ _ _ _ _ _ Ho).
  repeat split; intros H.
  - rewrite parse_line_SFIX by assumption. now rewrite Ht.
  - rewrite parse_line_SSACC by assumption. now rewrite Ht.
  - rewrite parse_line_SBLINK by assumption. now rewrite Ht.
Qed.

Lemma X12_start_event_lines_witness :
  step "TRIALSTART" None zero ("END" ++ LF) (Locals.fresh_trial 900)
    ("SSACC L  985290" ++ LF) =
  OK (Locals.mk [] [] [] [] [] [] (Events.mk [] [985290] [] [] [] [] []) 900 true).
Proof.
  apply (proj1 (proj2
           (X12_start_event_lines "TRIALSTART" None zero ("END" ++ LF)
              ("SSACC L  985290" ++ LF)
              (Locals.fresh_trial 900) (Locals.fresh_trial 900) 985290
              (conj eq_refl eq_refl) eq_refl))).
  reflexivity.
Defined.

(** X13: a start-event line is not guarded as a sample line is.  Inside
    an open trial, when [int] rejects the text after the first nine
    characters of a line that begins with [SFIX L], [SSACC L] or
    [SBLINK], [read_edf] raises the exception of [int] and returns
    nothing. *)
Theorem X13_start_event_line_malformed_raises :
  forall start stop missing pre line post st st1 e,
    let raw := (pre ++ line :: post)%list in
    let fl := last raw "" in
    loop start stop missing fl pre Locals.init = OK st ->
    open_at start stop fl line st st1 ->
    slice line 0 6 = "SFIX L" \/ slice line 0 7 = "SSACC L" \/
    slice line 0 6 = "SBLINK" ->
    int_of_string (slice_from line 9) = Raise e ->
    read_edf start stop missing (Some raw) = Raise e.
Proof.
  intros start stop missing pre line post st st1 e raw fl Hp Ho Htag He.
  apply (read_edf_step_raises _ _ _ _ _ _ _ _ Hp). fold raw. fold fl.
  rewrite (step_open _ _ _ _ _ _ _ Ho).
  destruct Htag as [H|[H|H]].
  - rewrite parse_line_SFIX by assumption. now rewrite He.
  - rewrite parse_line_SSACC by assumption. now rewrite He.
  - rewrite parse_line_SBLINK by assumption. now rewrite He.
Qed.

Lemma X13_start_event_line_malformed_raises_witness :
  read_edf "TRIALSTART" None zero
    (Some ["MSG" ++ TAB ++ "100 TRIALSTART" ++ LF;
           "SBLINK LEFT 985290" ++ LF;
           "END" ++ LF]) = Raise ValueError.
Proof.
  apply (X13_start_event_line_malformed_raises "TRIALSTART" None zero
           ["MSG" ++ TAB ++ "100 TRIALSTART" ++ LF]
           ("SBLINK LEFT 985290" ++ LF)
           ["END" ++ LF]
           (Locals.mk [] [] [] [] [] []
              (Events.append_msg (100, "TRIALSTART" ++ LF) Events.empty)
              100 true)
           (Locals.mk [] [] [] [] [] []
              (Events.append_msg (100, "TRIALSTART" ++ LF) Events.empty)
              100 true)
           ValueError).
  - reflexivity.
  - split; reflexivity.
  - right. right. reflexivity.
  - reflexivity.
Defined.

(** ** Message lines *)

Lemma prefix_space c r : prefix " " (String c r) = Ascii.eqb " " c.
Proof.
  change (prefix " " (String c r))
    with (if ascii_dec " " c then prefix "" r else false).
  destruct (ascii_dec " " c) as [<-|N].
  - now destruct r.
  - symmetry. now apply Ascii.eqb_neq.
Qed.

Lemma find_first_space a m : forall i,
  contains " " a = false ->
  find_from " " (a ++ String " " m) i = i + len a.
Proof.
  induction a as [|c a IH]; intros i H.
  - unfold len. simpl. destruct m; simpl; lia.
  - cbn [contains] in H. apply orb_false_elim in H. destruct H as [Hp Hc].
    rewrite prefix_space in Hp.
    change ((String c a) ++ String " " m) with (String c (a ++ String " " m)).
    cbn [find_from]. rewrite prefix_space, Hp, IH by assumption.
    unfold len. simpl String.length. lia.
Qed.

Lemma find_absent sub s : forall i,
  contains sub s = false -> find_from sub s i = -1.
Proof.
  induction s as [|c s IH]; intros i H; cbn [contains] in H.
  - cbn [find_from]. now rewrite H.
  - apply orb_false_elim in H. destruct H as [Hp Hc].
    cbn [find_from]. rewrite Hp. now apply IH.
Qed.

Lemma append_assoc (a b c : string) : (a ++ b) ++ c = a ++ b ++ c.
Proof. induction a as [|x a IH]; simpl; [reflexivity | now rewrite IH]. Qed.

(** X14: inside an open trial, a line made of [MSG], one character other
    than a space, a text [d] without a space that [int] reads as [t], a
    space and any text [m] adds [[t, m]] to [msg]: the message is all
    that follows the first space, kept as it is, spaces and line end
    included. *)
Theorem X14_message_line :
  forall start stop missing fl st st1 c d m t,
    let line := "MSG" ++ String c (d ++ String " " m) in
    open_at start stop fl line st st1 ->
    c <> " "%char ->
    contains " " d = false ->
    int_of_string d = OK t ->
    step start stop missing fl st line =
    OK (Locals.set_events (Events.append_msg (t, m) (Locals.events st1)) st1).
Proof.
  intros start stop missing fl st st1 c d m t line Ho Hc Hd Ht.
  rewrite (step_open _ _ _ _ _ _ _ Ho). unfold parse_line.
  assert (Htag : slice line 0 3 = "MSG").
  { rewrite slice_0 by lia. reflexivity. }
  rewrite Htag, String.eqb_refl.
  assert (Hms : find line " " = 4 + len d).
  { unfold find.
    change line with (("MSG" ++ String c d) ++ String " " m).
    rewrite find_first_space.
    - unfold len. simpl String.length. lia.
    - cbn [append contains]. rewrite !prefix_space.
      apply Ascii.eqb_neq in Hc. rewrite Ascii.eqb_sym in Hc.
      rewrite Ascii.eqb_sym, Hc. exact Hd. }
  rewrite Hms.
  assert (Hd' : slice line 4 (4 + len d) = d).
  { change line with (("MSG" ++ String c "") ++ d ++ String " " m).
    apply (slice_app_mid ("MSG" ++ String c "") d (String " " m)). }
  rewrite Hd', Ht. cbn [bind].
  assert (Hm : slice_from line (4 + len d + 1) = m).
  { replace line with (("MSG" ++ String c (d ++ " ")) ++ m)
      by (simpl; now rewrite append_assoc).
    replace (4 + len d + 1) with (len ("MSG" ++ String c (d ++ " ")))
      by (unfold len; simpl String.length; rewrite length_append;
          simpl String.length; lia).
    apply slice_from_app. }
  now rewrite Hm.
Qed.

Lemma X14_message_line_witness :
  step "TRIALSTART" None zero ("END" ++ LF) (Locals.fresh_trial 900)
    ("MSG" ++ String "009" ("3120773" ++ String " " ("TRIALNR 8 TARX 662" ++ LF))) =
  OK (Locals.mk [] [] [] [] [] []
        (Events.mk [] [] [] [] [] [] [(3120773, "TRIALNR 8 TARX 662" ++ LF)])
        900 true).
Proof.
  apply (X14_message_line "TRIALSTART" None zero ("END" ++ LF)
           (Locals.fresh_trial 900) (Locals.fresh_trial 900)
           "009"%char "3120773" ("TRIALNR 8 TARX 662" ++ LF) 3120773).
  - split; reflexivity.
  - discriminate.
  - reflexivity.
  - reflexivity.
Defined.

(** X15: inside an open trial, a line that begins with [MSG] and holds no
    space has [find] return -1: the time stamp is read from the text
    between the fifth character and the last one, left out, and the whole
    line is stored as the message. *)
Theorem X15_message_line_without_space :
  forall start stop missing fl line st st1 t,
    open_at start stop fl line st st1 ->
    slice line 0 3 = "MSG" ->
    contains " " line = false ->
    int_of_string (slice line 4 (-1)) = OK t ->
    step start stop missing fl st line =
    OK (Locals.set_events (Events.append_msg (t, line) (Locals.events st1)) st1).
Proof.
  intros start stop missing fl line st st1 t Ho Htag Hs Ht.
  rewrite (step_open _ _ _ _ _ _ _ Ho). unfold parse_line.
  rewrite Htag, String.eqb_refl.
  unfold find. rewrite find_absent by assumption.
  rewrite Ht. cbn [bind]. change (-1 + 1) with 0.
  now rewrite slice_from_0.
Qed.

Lemma X15_message_line_without_space_witness :
  step "TRIALSTART" None zero ("END" ++ LF) (Locals.fresh_trial 900)
    ("MSG" ++ TAB ++ "3120773" ++ LF) =
  OK (Locals.mk [] [] [] [] [] []
        (Events.mk [] [] [] [] [] [] [(3120773, "MSG" ++ TAB ++ "3120773" ++ LF)])
        900 true).
Proof.
  apply (X15_message_line_without_space "TRIALSTART" None zero ("END" ++ LF)
           ("MSG" ++ TAB ++ "3120773" ++ LF)
           (Locals.fresh_trial 900) (Locals.fresh_trial 900) 3120773).
  - split; reflexivity.
  - reflexivity.
  - reflexivity.
  - reflexivity.
Defined.

(** ** End-event lines *)

Lemma parse_line_EFIX missing line st :
  slice line 0 6 = "EFIX L" ->
  parse_line missing line st =
  (let l := fields (slice_from line 9) in
   st' <- int_field l 0 ;;
   et <- int_field l 1 ;;
   dur <- int_field l 2 ;;
   sx <- pos_field missing l 3 ;;
   sy <- pos_field missing l 4 ;;
   OK (Locals.set_events
         (Events.append_Efix (st', et, dur, sx, sy) (Locals.events st)) st)).
Proof. intros H. tag_tests H. reflexivity. Qed.

Lemma parse_line_ESACC missing line st :
  slice line 0 7 = "ESACC L" ->
  parse_line missing line st =
  (let l := fields (slice_from line 9) in
   st' <- int_field l 0 ;;
   et <- int_field l 1 ;;
   dur <- int_field l 2 ;;
   sx <- pos_field missing l 3 ;;
   sy <- pos_field missing l 4 ;;
   ex <- pos_field missing l 5 ;;
   ey <- pos_field missing l 6 ;;
   OK (Locals.set_events
         (Events.append_Esac (st', et, dur, sx, sy, ex, ey) (Locals.events st))
         st)).
Proof. intros H. tag_tests H. reflexivity. Qed.

(** X16: inside an open trial, a line that begins with [EFIX L] and has
    at least five tab-separated fields after its first nine characters
    adds one entry to [Efix]: the three integers of the first fields and
    the two coordinates that [replace_missing] gives for the fourth and
    the fifth; further fields are ignored. *)
Theorem X16_fixation_end_line :
  forall start stop missing fl line st st1 f0 f1 f2 f3 f4 more a b d sx sy,
    open_at start stop fl line st st1 ->
    slice line 0 6 = "EFIX L" ->
    fields (slice_from line 9) = f0 :: f1 :: f2 :: f3 :: f4 :: more ->
    int_of_string f0 = OK a ->
    int_of_string f1 = OK b ->
    int_of_string f2 = OK d ->
    replace_missing f3 missing = OK sx ->
    replace_missing f4 missing = OK sy ->
    step start stop missing fl st line =
    OK (Locals.set_events
          (Events.append_Efix (a, b, d, sx, sy) (Locals.events st1)) st1).
Proof.
  intros start stop missing fl line st st1 f0 f1 f2 f3 f4 more a b d sx sy
         Ho Htag Hf H0 H1 H2 H3 H4.
  rewrite (step_open _ _ _ _ _ _ _ Ho).
  rewrite parse_line_EFIX by assumption. rewrite Hf.
  unfold int_field, pos_field. cbn [index nth_error bind].
  rewrite H0. cbn [bind]. rewrite H1. cbn [bind]. rewrite H2. cbn [bind].
  rewrite H3. cbn [bind]. rewrite H4. reflexivity.
Qed.

Lemma X16_fixation_end_line_witness :
  step "TRIALSTART" None (S754_infinity true) ("END" ++ LF) (Locals.fresh_trial 900)
    ("EFIX L   100" ++ TAB ++ "200" ++ TAB ++ "100" ++ TAB ++ "   ." ++ TAB
       ++ "  300.5" ++ TAB ++ "   1651" ++ LF) =
  OK (Locals.mk [] [] [] [] [] []
        (Events.mk [] [] []
           [(100, 200, 100, S754_infinity true, of_decimal false 3005 (-1))]
           [] [] [])
        900 true).
Proof.
  apply (X16_fixation_end_line "TRIALSTART" None (S754_infinity true) ("END" ++ LF)
           ("EFIX L   100" ++ TAB ++ "200" ++ TAB ++ "100" ++ TAB ++ "   ." ++ TAB
              ++ "  300.5" ++ TAB ++ "   1651" ++ LF)
           (Locals.fresh_trial 900) (Locals.fresh_trial 900)
           "100" "200" "100" "   ." "  300.5" [("   1651" ++ LF)%string]).
  - split; reflexivity.
  - reflexivity.
  - reflexivity.
  - reflexivity.
  - reflexivity.
  - reflexivity.
  - reflexivity.
  - vm_compute; reflexivity.
Defined.

(** X17: inside an open trial, a line that begins with [ESACC L] and has
    at least seven tab-separated fields after its first nine characters
    adds one entry to [Esac]: the three integers of the first fields and
    the four coordinates that [replace_missing] gives for the next four;
    further fields are ignored. *)
Theorem X17_saccade_end_line :
  forall start stop missing fl line st st1 f0 f1 f2 f3 f4 f5 f6 more
         a b d sx sy ex ey,
    open_at start stop fl line st st1 ->
    slice line 0 7 = "ESACC L" ->
    fields (slice_from line 9) = f0 :: f1 :: f2 :: f3 :: f4 :: f5 :: f6 :: more ->
    int_of_string f0 = OK a ->
    int_of_string f1 = OK b ->
    int_of_string f2 = OK d ->
    replace_missing f3 missing = OK sx ->
    replace_missing f4 missing = OK sy ->
    replace_missing f5 missing = OK ex ->
    replace_missing f6 missing = OK ey ->
    step start stop missing fl st line =
    OK (Locals.set_events
          (Events.append_Esac (a, b, d, sx, sy, ex, ey) (Locals.events st1)) st1).
Proof.
  intros start stop missing fl line st st1 f0 f1 f2 f3 f4 f5 f6 more
         a b d sx sy ex ey Ho Htag Hf H0 H1 H2 H3 H4 H5 H6.
  rewrite (step_open _ _ _ _ _ _ _ Ho).
  rewrite parse_line_ESACC by assumption. rewrite Hf.
  unfold int_field, pos_field. cbn [index nth_error bind].
  rewrite H0. cbn [bind]. rewrite H1. cbn [bind]. rewrite H2. cbn [bind].
  rewrite H3. cbn [bind]. rewrite H4. cbn [bind]. rewrite H5. cbn [bind].
  rewrite H6. reflexivity.
Qed.

Lemma X17_saccade_end_line_witness :
  step "TRIALSTART" None zero ("END" ++ LF) (Locals.fresh_trial 900)
    ("ESACC L  100" ++ TAB ++ "120" ++ TAB ++ "20" ++ TAB ++ "  1.5" ++ TAB
       ++ "   ." ++ TAB ++ "  2.5" ++ TAB ++ "  3.5" ++ TAB ++ "  0.54" ++ LF) =
  OK (Locals.mk [] [] [] [] [] []
        (Events.mk [] [] [] []
           [(100, 120, 20, of_decimal false 15 (-1), zero,
             of_decimal false 25 (-1), of_decimal false 35 (-1))]
           [] [])
        900 true).
Proof.
  apply (X17_saccade_end_line "TRIALSTART" None zero ("END" ++ LF)
           ("ESACC L  100" ++ TAB ++ "120" ++ TAB ++ "20" ++ TAB ++ "  1.5" ++ TAB
              ++ "   ." ++ TAB ++ "  2.5" ++ TAB ++ "  3.5" ++ TAB ++ "  0.54" ++ LF)
           (Locals.fresh_trial 900) (Locals.fresh_trial 900)
           "100" "120" "20" "  1.5" "   ." "  2.5" "  3.5" [("  0.54" ++ LF)%string]).
  - split; reflexivity.
  - reflexivity.
  - reflexivity.
  - reflexivity.
  - reflexivity.
  - reflexivity.
  - vm_compute; reflexivity.
  - reflexivity.
  - vm_compute; reflexivity.
  - vm_compute; reflexivity.
Defined.

(** * [parse_fixations] *)

Lemma setitem_middle {A : Type} (l : list A) (a v : A) (r : list A) n :
  List.length l = n -> setitem (l ++ a :: r) n v = (l ++ v :: r)%list.
Proof.
  intros <-. induction l as [|b l IH]; simpl; [reflexivity | now rewrite IH].
Qed.

Lemma index_middle {A : Type} (l : list A) (a : A) (r : list A) :
  index (l ++ a :: r) (List.length l) = OK a.
Proof.
  unfold index. rewrite nth_error_app2 by lia.
  now rewrite Nat.sub_diag.
Qed.

Lemma parse_fixations_loop_spec todo : forall done xs ys ds,
  List.length xs = List.length done ->
  List.length ys = List.length done ->
  List.length ds = List.length done ->
  parse_fixations_loop (done ++ todo)
    (seq (List.length done) (List.length todo))
    (Fix.mk (xs ++ zeros (List.length todo)) (ys ++ zeros (List.length todo))
       (ds ++ zeros (List.length todo))) =
  (new <- map_result float_of_int (map fix_dur todo) ;;
   OK (Fix.mk (xs ++ map fix_x todo) (ys ++ map fix_y todo) (ds ++ new))).
Proof.
  induction todo as [|e todo IH]; intros done xs ys ds Lx Ly Ld.
  - simpl. now rewrite !app_nil_r.
  - destruct e as [[[[stime etime] dur] ex] ey].
    cbn [List.length seq parse_fixations_loop map map_result zeros repeat
         fix_dur fix_x fix_y].
    rewrite index_middle. cbn [bind Fix.x Fix.y Fix.dur].
    destruct (float_of_int dur) as [d|err]; [|reflexivity]. cbn [bind].
    rewrite (setitem_middle xs), (setitem_middle ys), (setitem_middle ds)
      by assumption.
    assert (IH' := IH (done ++ [(stime, etime, dur, ex, ey)])%list
                      (xs ++ [ex])%list (ys ++ [ey])%list (ds ++ [d])%list).
    rewrite !length_app, <- !app_assoc in IH'. cbn [List.length app] in IH'.
    rewrite !Nat.add_1_r in IH'.
    unfold zeros in IH' |- *. rewrite IH' by lia.
    destruct (map_result float_of_int (map fix_dur todo)) as [new|err];
      [|reflexivity].
    cbn [bind]. now rewrite <- !app_assoc.
Qed.

(** X18: the loop of [parse_fixations], which fills three arrays of zeros
    index by index, computes three maps over the fixation end events:
    [x] and [y] hold the end coordinates in order and [dur] the durations
    converted to floats, so the three arrays have the length of the
    input; the call raises [OverflowError] when a duration is too large
    for a float, and only then. *)
Theorem X18_parse_fixations_maps :
  forall fixations,
    parse_fixations fixations =
    (durs <- map_result float_of_int (map fix_dur fixations) ;;
     OK (Fix.mk (map fix_x fixations) (map fix_y fixations) durs)).
Proof.
  intros fixations. unfold parse_fixations.
  apply (parse_fixations_loop_spec fixations [] [] [] []); reflexivity.
Qed.

(** * [draw_display] and [draw_raw] *)

Lemma and_then_Returns {A B : Type} (r : outcome A) (k : A -> outcome B) b :
  and_then r k = Returns b -> exists a, r = Returns a /\ k a = Returns b.
Proof.
  destruct r as [a|e]; simpl; intros H; [eauto | discriminate].
Qed.

Section PlotFacts.

Variable splitext : string -> string * string.
Variable isfile : string -> bool.
Variable Px : Type.
Variable imread : string -> outcome (list (list Px)).
Variable Screen : Type.
Variable np_zeros : Z -> Z -> dtype -> outcome Screen.
Variable np_iadd : Screen -> Z -> Z -> Z -> Z -> list (list Px) -> outcome Screen.
Variable Figure : Type.
Variable show_screen : pyfloat * pyfloat -> Z * Z -> Screen -> outcome Figure.
Variable plot_points : Figure -> list pyfloat -> list pyfloat -> outcome Figure.
Variable invert_yaxis : Figure -> outcome Figure.
Variable savefig : Figure -> string -> outcome Figure.

Lemma draw_display_returns dispsize imagefile fig :
  draw_display splitext isfile Px imread Screen np_zeros np_iadd Figure
    show_screen dispsize imagefile = Returns fig ->
  exists f, imagefile = Some f /\ isfile f = true.
Proof.
  unfold draw_display. intros H.
  destruct imagefile as [f|]; [|discriminate H].
  exists f. split; [reflexivity|]. cbn [and_then] in H.
  apply and_then_Returns in H. destruct H as (screen & _ & H).
  apply and_then_Returns in H. destruct H as (screen' & E & _).
  unfold draw_image in E. destruct (isfile f); [reflexivity | discriminate E].
Qed.

(** X19: [draw_display] never gives the bare black display that its
    default [imagefile=None] announces: with [None] it raises [TypeError]
    at its first statement, with the name of a file that does not exist
    it raises its exception once the array of zeros is made, and whenever
    it returns a figure, [imagefile] names an existing file. *)
Theorem X19_draw_display_needs_image_file :
  forall dispsize,
    draw_display splitext isfile Px imread Screen np_zeros np_iadd Figure
      show_screen dispsize None = Fails TypeError /\
    (forall f,
       isfile f = false ->
       (forall dt, exists screen,
          np_zeros (snd dispsize) (fst dispsize) dt = Returns screen) ->
       draw_display splitext isfile Px imread Screen np_zeros np_iadd Figure
         show_screen dispsize (Some f) = Fails (Lifted FileError)) /\
    (forall imagefile fig,
       draw_display splitext isfile Px imread Screen np_zeros np_iadd Figure
         show_screen dispsize imagefile = Returns fig ->
       exists f, imagefile = Some f /\ isfile f = true).
Proof.
  intros dispsize. split; [reflexivity|]. split.
  - intros f Hf Hz. unfold draw_display. cbn [and_then].
    destruct (Hz (if (lower_string (snd (splitext f)) =? ".png")%string
                  then float32 else uint8)) as [screen ->].
    cbn [and_then]. unfold draw_image. now rewrite Hf.
  - apply draw_display_returns.
Qed.

(** X20: [draw_raw] calls [draw_display] first, so with its default
    [imagefile=None] it raises [TypeError] before anything is plotted or
    saved, and it completes only when [imagefile] names an existing
    file. *)
Theorem X20_draw_raw_needs_image_file :
  forall x y dispsize savefilename,
    draw_raw splitext isfile Px imread Screen np_zeros np_iadd Figure
      show_screen plot_points invert_yaxis savefig
      x y dispsize None savefilename = Fails TypeError /\
    (forall imagefile fig,
       draw_raw splitext isfile Px imread Screen np_zeros np_iadd Figure
         show_screen plot_points invert_yaxis savefig
         x y dispsize imagefile savefilename = Returns fig ->
       exists f, imagefile = Some f /\ isfile f = true).
Proof.
  intros x y dispsize savefilename. split; [reflexivity|].
  intros imagefile fig H. unfold draw_raw in H.
  apply and_then_Returns in H. destruct H as (fig0 & E & _).
  eapply draw_display_returns; eauto.
Qed.

End PlotFacts.

(** A display of 1024 by 768 and an image of 800 by 600: the image is
    added to the rows 84 to 684 and the columns 112 to 912 of the
    screen. *)
Example draw_display_centres_image :
  draw_display (fun f => (f, ".PNG")) (fun _ => true) unit
    (fun _ => Returns (repeat (repeat tt 800) 600))
    (list (Z * Z * Z * Z) * dtype)
    (fun _ _ dt => Returns ([], dt))
    (fun s y0 y1 x0 x1 _ => Returns ((y0, y1, x0, x1) :: fst s, snd s))
    (list (Z * Z * Z * Z) * dtype)
    (fun _ _ s => Returns s)
    (1024, 768) (Some "face.PNG") =
  Returns ([(84, 684, 112, 912)], float32).
Proof. vm_compute. reflexivity. Qed.

Lemma X19_draw_display_needs_image_file_witness :
  draw_display (fun f => (f, ".png")) toy_isfile unit
    (fun _ => Returns [[tt]])
    unit (fun _ _ _ => Returns tt) (fun _ _ _ _ _ _ => Returns tt)
    unit (fun _ _ _ => Returns tt)
    (1024, 768) (Some "face.png") = Returns tt /\
  exists f, Some "face.png" = Some f /\ toy_isfile f = true.
Proof.
  split; [vm_compute; reflexivity|].
  apply (proj2 (proj2
           (X19_draw_display_needs_image_file
              (fun f => (f, ".png")) toy_isfile unit
              (fun _ => Returns [[tt]])
              unit (fun _ _ _ => Returns tt) (fun _ _ _ _ _ _ => Returns tt)
              unit (fun _ _ _ => Returns tt)
              (1024, 768)))
           (Some "face.png") tt).
  vm_compute. reflexivity.
Defined.

Lemma X20_draw_raw_needs_image_file_witness :
  draw_raw (fun f => (f, ".png")) toy_isfile unit
    (fun _ => Returns [[tt]])
    unit (fun _ _ _ => Returns tt) (fun _ _ _ _ _ _ => Returns tt)
    unit (fun _ _ _ => Returns tt)
    (fun fig _ _ => Returns fig) (fun fig => Returns fig)
    (fun fig _ => Returns fig)
    [zero] [zero] (1024, 768) (Some "face.png") None = Returns tt /\
  exists f, Some "face.png" = Some f /\ toy_isfile f = true.
Proof.
  split; [vm_compute; reflexivity|].
  apply (proj2
           (X20_draw_raw_needs_image_file
              (fun f => (f, ".png")) toy_isfile unit
              (fun _ => Returns [[tt]])
              unit (fun _ _ _ => Returns tt) (fun _ _ _ _ _ _ => Returns tt)
              unit (fun _ _ _ => Returns tt)
              (fun fig _ _ => Returns fig) (fun fig => Returns fig)
              (fun fig _ => Returns fig)
              [zero] [zero] (1024, 768) None)
           (Some "face.png") tt).
  vm_compute. reflexivity.
Defined.

(** * The stop marker *)

(** X21: with a stop marker configured, a line that contains it and is
    met inside an open trial closes the trial and is not parsed: whatever
    else the line holds, it leaves no event and no sample in any trial
    and cannot raise. *)
Theorem X21_stop_line_not_parsed :
  forall start s missing fl line st,
    Locals.started st = true ->
    contains s line = true ->
    step start (Some s) missing fl st line = OK (end_trial false st).
Proof.
  intros start s missing fl line st S H.
  unfold step, check_started. now rewrite S, H.
Qed.

Lemma X21_stop_line_not_parsed_witness :
  step "TRIALSTART" (Some "TRIALEND") zero ("END" ++ LF)
    (Locals.fresh_trial 900) ("SFIX L   not a number TRIALEND" ++ LF) =
  OK (Locals.mk [Trial.mk [] [] [] [] [] Events.empty] [] [] [] [] []
        Events.empty 900 false).
Proof.
  apply (X21_stop_line_not_parsed "TRIALSTART" "TRIALEND" zero ("END" ++ LF)
           ("SFIX L   not a number TRIALEND" ++ LF) (Locals.fresh_trial 900)).
  - reflexivity.
  - reflexivity.
Defined.

Lemma step_stop_finalline start s missing fl fl' st line :
  step start (Some s) missing fl st line =
  step start (Some s) missing fl' st line.
Proof. reflexivity. Qed.

Lemma loop_stop_finalline start s missing fl fl' raw : forall st,
  loop start (Some s) missing fl raw st =
  loop start (Some s) missing fl' raw st.
Proof.
  induction raw as [|line rest IH]; intros st; simpl; [reflexivity|].
  rewrite (step_stop_finalline _ _ _ fl fl').
  destruct (step start (Some s) missing fl' st line); simpl;
    [apply IH | reflexivity].
Qed.

Lemma step_data_grows start stop missing fl line st st' :
  step start stop missing fl st line = OK st' ->
  exists new, Locals.data st' = (Locals.data st ++ new)%list.
Proof.
  unfold step. intros H. apply bind_OK in H. destruct H as (st1 & E & H).
  assert (D1 : exists new, Locals.data st1 = (Locals.data st ++ new)%list).
  { unfold check_started in E.
    destruct (Locals.started st).
    - destruct stop as [s|].
      + destruct (contains s line); injection E as <-;
          [now exists [Locals.trial st] | exists []; now rewrite app_nil_r].
      + destruct (contains start line || (line =? fl)%string);
          injection E as <-;
          [now exists [Locals.trial st] | exists []; now rewrite app_nil_r].
    - destruct (contains start line).
      + destruct (start_timestamp line); simpl in E; [|discriminate].
        injection E as <-. exists []. simpl. now rewrite app_nil_r.
      + injection E as <-. exists []. now rewrite app_nil_r. }
  destruct D1 as (new & D1). exists new.
  destruct (Locals.started st1).
  - apply parse_line_keeps in H. destruct H as (-> & _). exact D1.
  - injection H as <-. exact D1.
Qed.

Lemma loop_data_grows start stop missing fl raw : forall st st',
  loop start stop missing fl raw st = OK st' ->
  exists new, Locals.data st' = (Locals.data st ++ new)%list.
Proof.
  induction raw as [|line rest IH]; simpl; intros st st' H.
  - injection H as <-. exists []. now rewrite app_nil_r.
  - apply bind_OK in H. destruct H as (st1 & E & H).
    apply step_data_grows in E. destruct E as (n1 & D1).
    apply IH in H. destruct H as (n2 & D2).
    exists (n1 ++ n2)%list. now rewrite D2, D1, app_assoc.
Qed.

(** X22: with a stop marker configured the reader is incremental: the
    trials returned for a log are returned unchanged, and first, for any
    longer log that begins with the same lines. *)
Theorem X22_explicit_stop_incremental :
  forall start s missing raw more data data',
    read_edf start (Some s) missing (Some raw) = OK data ->
    read_edf start (Some s) missing (Some (raw ++ more)%list) = OK data' ->
    exists new, data' = (data ++ new)%list.
Proof.
  intros start s missing raw more data data' H H'.
  unfold read_edf in H, H'.
  apply bind_OK in H. destruct H as (fl & _ & H).
  apply bind_OK in H. destruct H as (st & E & H). injection H as <-.
  apply bind_OK in H'. destruct H' as (fl' & _ & H').
  apply bind_OK in H'. destruct H' as (st' & E' & H'). injection H' as <-.
  rewrite loop_app, (loop_stop_finalline _ _ _ fl' fl), E in E'.
  cbn [bind] in E'. eapply loop_data_grows; eauto.
Qed.

Lemma X22_explicit_stop_incremental_witness :
  exists data data' new,
    read_edf "TRIALSTART" (Some "TRIALEND") zero
      (Some (firstn 3 log_with_stop)) = OK data /\
    read_edf "TRIALSTART" (Some "TRIALEND") zero (Some log_with_stop)
    = OK data' /\
    List.length data = 1%nat /\ data' = (data ++ new)%list.
Proof.
  destruct (read_edf "TRIALSTART" (Some "TRIALEND") zero
              (Some (firstn 3 log_with_stop))) as [d|e] eqn:E1;
    [|vm_compute in E1; discriminate].
  destruct (read_edf "TRIALSTART" (Some "TRIALEND") zero (Some log_with_stop))
    as [d'|e] eqn:E2; [|vm_compute in E2; discriminate].
  destruct (X22_explicit_stop_incremental "TRIALSTART" "TRIALEND" zero
              (firstn 3 log_with_stop) (skipn 3 log_with_stop) d d' E1 E2)
    as [new Hn].
  exists d, d', new. split; [reflexivity|]. split; [reflexivity|].
  split; [|exact Hn].
  vm_compute in E1. injection E1 as <-. reflexivity.
Defined.
